(** * fms_fsdp: the training loop driver and the policy selector

    A shallow embedding of [fms_fsdp/utils/train_utils.py] ([train],
    [get_policies]) and of the fields of [fms_fsdp/config/training.py]
    they read.

    Conventions of the embedding:
    - Python [int] is [Z]; Python [float] and the float32 slots of the
      [ddp_stats] tensor are exact rationals [Q] (rounding is not
      modelled), compared with [==];
    - a Python exception is a value of [exn]; a computation that may
      raise returns a [result];
    - the local variables of [train] live in a [frame]; a local that has
      not been assigned yet is [None], and reading it raises
      [UnboundLocalError];
    - what [train] does to the outside world (printing, the collective,
      wandb, the checkpointer, the profiler) is appended to a trace of
      [event]s carried by the frame. *)

From Stdlib Require Import ZArith QArith Qround List String Bool Lia Permutation.
Import ListNotations.
Local Open Scope string_scope.
Local Open Scope list_scope.
Local Open Scope Z_scope.

(** ** Exceptions and results *)

Inductive exn : Type :=
| ImportError
| KeyError (key : string)
| UnboundLocalError (name : string)
| ZeroDivisionError
| ProbeError (what : string).

Inductive result (A : Type) : Type :=
| Ok (a : A)
| Raise (e : exn).
Arguments Ok {A} a.
Arguments Raise {A} e.

Definition is_ok {A} (r : result A) : bool :=
  match r with Ok _ => true | Raise _ => false end.

(** ** fms_fsdp/config/training.py *)

(** The fields of the [train_config] dataclass read by [train] and
    [get_policies]. *)
Record train_config : Type := mk_train_config {
  seq_length : Z;
  mixed_precision : bool;
  sharding_strategy : string;
  batch_size : Z;
  num_steps : Z;
  learning_rate : Q;
  use_wandb : bool;
  wandb_dir : string;
  wandb_project_name : string;
  wandb_run_id : string;
  report_interval : Z;
  checkpoint_interval : Z
}.

(** The dataclass defaults. *)
Definition default_train_config : train_config := {|
  seq_length := 4096;
  mixed_precision := true;
  sharding_strategy := "hsdp";
  batch_size := 2;
  num_steps := 2000000;
  learning_rate := 3 # 10000;
  use_wandb := false;
  wandb_dir := "/lustre/lchu/fms-fsdp";
  wandb_project_name := "llama-7b";
  wandb_run_id := "aabbccdd";
  report_interval := 200;
  checkpoint_interval := 20000
|}.

(** ** get_policies *)

Inductive ShardingStrategy : Type := FULL_SHARD | HYBRID_SHARD | NO_SHARD.

(** The two policies of [fms_fsdp.policies] that [get_policies] chooses
    between; "no mixed precision" is Python's [None]. *)
Inductive MixedPrecision : Type := bfSixteen | fpSixteen.

(** The outcome of each capability probe of lines 160-166, as the call
    would return it or raise. [torch_version_cuda] is an attribute (it is
    [None] on a build without CUDA) and cannot raise; [cuda_release] is
    [packaging.version.parse(torch.version.cuda).release]. *)
Record hardware : Type := mk_hardware {
  torch_version_cuda : option string;
  is_bf16_supported : result bool;
  cuda_release : result (list Z);
  is_nccl_available : result bool;
  nccl_version : result (list Z)
}.

(** Python's [>=] on tuples of integers: lexicographic, a proper prefix
    being smaller. *)
Fixpoint tuple_ge (a b : list Z) : bool :=
  match a, b with
  | _, [] => true
  | [], _ :: _ => false
  | x :: a', y :: b' =>
      if x >? y then true else if x <? y then false else tuple_ge a' b'
  end.

(** Truthiness of [torch.version.cuda]. *)
Definition truthy_str (s : option string) : bool :=
  match s with
  | None => false
  | Some s => negb (String.eqb s "")
  end.

(** [a and b] where evaluating [a] may raise and [b] is only evaluated
    when [a] is truthy. *)
Definition and_then (a : result bool) (b : result bool) : result bool :=
  match a with
  | Raise e => Raise e
  | Ok false => Ok false
  | Ok true => b
  end.

Definition map_result {A B} (f : A -> B) (r : result A) : result B :=
  match r with Ok a => Ok (f a) | Raise e => Raise e end.

(** Lines 160-166; the result is the truthiness of the chain. *)
Definition verify_bfloat_support (hw : hardware) : result bool :=
  and_then (Ok (truthy_str (torch_version_cuda hw)))
  (and_then (is_bf16_supported hw)
  (and_then (map_result (fun r => tuple_ge r [11; 0]) (cuda_release hw))
  (and_then (is_nccl_available hw)
            (map_result (fun v => tuple_ge v [2; 10]) (nccl_version hw))))).

(** Lines 186-193. *)
Definition select_sharding_strategy (s : string) : ShardingStrategy :=
  if String.eqb s "fsdp" then FULL_SHARD
  else if String.eqb s "hsdp" then HYBRID_SHARD
  else if String.eqb s "ddp" then NO_SHARD
  else FULL_SHARD.

Section GetPolicies.

(** [get_llama_wrapper()] of [fms_fsdp.policies] is opaque here. *)
Variable WrapPolicy : Type.
Variable get_llama_wrapper : WrapPolicy.

Record policies : Type := mk_policies {
  mixed_precision_policy : option MixedPrecision;
  wrapping_policy : WrapPolicy;
  sharding : ShardingStrategy;
  printed_lines : list string
}.

(** Lines 157-197. The lines printed by rank 0 are returned with the
    triple. *)
Definition get_policies (hw : hardware) (cfg : train_config) (rank : Z)
  : result policies :=
  match verify_bfloat_support hw with
  | Raise e => Raise e
  | Ok bf16_ready =>
      let '(mp, out1) :=
        if mixed_precision cfg then
          if bf16_ready then
            (Some bfSixteen,
             if rank =? 0
             then ["bFloat16 enabled for mixed precision - using bfSixteen policy"]
             else [])
          else
            (Some fpSixteen, if rank =? 0 then ["FP16 enabled"] else [])
        else (None, []) in
      let wp := get_llama_wrapper in
      let ss := select_sharding_strategy (sharding_strategy cfg) in
      let out2 :=
        if rank =? 0
        then [("Sharding strategy = " ++ sharding_strategy cfg)%string]
        else [] in
      Ok (mk_policies mp wp ss (out1 ++ out2))
  end.

End GetPolicies.

Arguments mixed_precision_policy {WrapPolicy} _.
Arguments wrapping_policy {WrapPolicy} _.
Arguments sharding {WrapPolicy} _.
Arguments printed_lines {WrapPolicy} _.

(** The triple [get_policies] returns. *)
Definition returned {W : Type} (p : policies W)
  : option MixedPrecision * W * ShardingStrategy :=
  (mixed_precision_policy p, wrapping_policy p, sharding p).

(** The hardware [hw] with other CUDA release and NCCL version
    tuples. *)
Definition with_versions (hw : hardware) (release version : list Z)
  : hardware :=
  mk_hardware (torch_version_cuda hw) (is_bf16_supported hw) (Ok release)
              (is_nccl_available hw) (Ok version).

(** ** setup_environ_flags *)

(** [os.environ]: the value of each variable that is set. *)
Definition environ : Type := string -> option string.

(** [os.environ[key] = value]. *)
Definition setitem (env : environ) (key value : string) : environ :=
  fun k => if String.eqb k key then Some value else env k.

(** Lines 152-154; [str(1)] is ["1"]. *)
Definition setup_environ_flags (env : environ) : environ :=
  setitem (setitem env "TORCH_SHOW_CPP_STACKTRACES" "1")
          "NCCL_ASYNC_ERROR_HANDLING" "1".

(** ** train: values, events and the frame *)

(** The three slots of the [ddp_stats] tensor: summed loss
    ([ddp_stats[0]]), summed gradient norm ([ddp_stats[1]]) and step
    count ([ddp_stats[2]]). *)
Record stats : Type := mk_stats {
  sum_loss : Q;
  sum_gnorm : Q;
  count : Q
}.

Definition zeros : stats := mk_stats 0 0 0.

Definition stats_add (a b : stats) : stats :=
  mk_stats (sum_loss a + sum_loss b)%Q (sum_gnorm a + sum_gnorm b)%Q
           (count a + count b)%Q.

Definition stats_eq (a b : stats) : Prop :=
  (sum_loss a == sum_loss b /\ sum_gnorm a == sum_gnorm b /\
   count a == count b)%Q.

(** A batch, seen through the two scalars the collaborators compute from
    it: [loss.item()] (line 77) and
    [model.clip_grad_norm_(cfg.grad_clip_thresh).item()] (line 73). *)
Record batch : Type := mk_batch {
  loss_item : Q;
  grad_norm_item : Q
}.

(** A printed value. *)
Inductive pyval : Type :=
| VInt (z : Z)
| VFloat (q : Q).

(** The dictionary handed to [wandb.log] (lines 121-129). *)
Record wandb_metrics : Type := mk_wandb_metrics {
  w_learning_rate : Q;
  w_loss : Q;
  w_gradient_norm : Q;
  w_token_seen : Z;
  w_throughput : Z;
  w_gpu_reserved_memory : Z;
  w_gpu_allocated_memory : Z
}.

Section Train.

(** The collaborators [train] is handed, as opaque handles. *)
Variables Model Optimizer Loader : Type.

Inductive event : Type :=
| EvPrint (label : string) (v : pyval)
| EvPrintMsg (msg : string)
| EvWandbInit (project dir id : string)
| EvWandbLog (m : wandb_metrics) (step : Z)
| EvProfilerStep
| EvAllReduce (batch_idx : Z) (contribution : stats)
| EvSave (batch_idx : Z) (m : Model) (o : Optimizer) (l : Loader)
       (tokens_seen : Z).

(** The locals of [train] that live across statements, the number of
    [time.time()] calls made so far, and the trace. *)
Record frame : Type := mk_frame {
  ddp_stats : stats;
  start : Q;
  loop_start : Q;
  train_loss : option Q;
  g_norm : option Q;
  new_tokens_seen : option Z;
  ticks : nat;
  trace : list event
}.

Definition M (A : Type) : Type := frame -> result A * frame.

Definition ret {A} (a : A) : M A := fun f => (Ok a, f).
Definition raise {A} (e : exn) : M A := fun f => (Raise e, f).
Definition bind {A B} (m : M A) (k : A -> M B) : M B :=
  fun f =>
    match m f with
    | (Ok a, f') => k a f'
    | (Raise e, f') => (Raise e, f')
    end.

Notation "x <- m ;; k" := (bind m (fun x => k))
  (at level 61, m at next level, right associativity).
Notation "m ;; k" := (bind m (fun _ => k))
  (at level 61, right associativity).

Definition get {A} (proj : frame -> A) : M A := fun f => (Ok (proj f), f).
Definition update (g : frame -> frame) : M unit := fun f => (Ok tt, g f).
Definition emit (e : event) : M unit :=
  update (fun f => mk_frame (ddp_stats f) (start f) (loop_start f)
                     (train_loss f) (g_norm f) (new_tokens_seen f) (ticks f)
                     (trace f ++ [e])).
Definition when (b : bool) (m : M unit) : M unit := if b then m else ret tt.

Definition set_ddp_stats (d : stats) : M unit :=
  update (fun f => mk_frame d (start f) (loop_start f) (train_loss f)
                     (g_norm f) (new_tokens_seen f) (ticks f) (trace f)).
Definition set_start (t : Q) : M unit :=
  update (fun f => mk_frame (ddp_stats f) t (loop_start f) (train_loss f)
                     (g_norm f) (new_tokens_seen f) (ticks f) (trace f)).
Definition set_train_loss (v : Q) : M unit :=
  update (fun f => mk_frame (ddp_stats f) (start f) (loop_start f) (Some v)
                     (g_norm f) (new_tokens_seen f) (ticks f) (trace f)).
Definition set_g_norm (v : Q) : M unit :=
  update (fun f => mk_frame (ddp_stats f) (start f) (loop_start f)
                     (train_loss f) (Some v) (new_tokens_seen f) (ticks f)
                     (trace f)).
Definition set_loop_start (t : Q) : M unit :=
  update (fun f => mk_frame (ddp_stats f) (start f) t (train_loss f)
                     (g_norm f) (new_tokens_seen f) (ticks f) (trace f)).
Definition set_new_tokens_seen (v : Z) : M unit :=
  update (fun f => mk_frame (ddp_stats f) (start f) (loop_start f)
                     (train_loss f) (g_norm f) (Some v) (ticks f) (trace f)).

(** Reading a local that may not have been assigned. *)
Definition load {A} (name : string) (proj : frame -> option A) : M A :=
  fun f =>
    match proj f with
    | Some v => (Ok v, f)
    | None => (Raise (UnboundLocalError name), f)
    end.

(** Python's [%] on integers: the sign of the divisor, and
    [ZeroDivisionError] on zero. *)
Definition py_mod (a b : Z) : M Z :=
  if b =? 0 then raise ZeroDivisionError else ret (a mod b).

(** Python's [/] on numbers. *)
Definition py_div (a b : Q) : M Q :=
  if Qeq_bool b 0 then raise ZeroDivisionError else ret (a / b)%Q.

(** Python's [int()] on a float: truncation towards zero. *)
Definition py_int (q : Q) : Z := Z.quot (Qnum q) (Zpos (Qden q)).

(** The world around one worker process. *)
Variable clock : nat -> Q.             (* the n-th call of time.time() *)
Variable environ_WORLD_SIZE : option Z.
  (* os.environ["WORLD_SIZE"]: absent, or the integer int() reads off it *)
Variable wandb_installed : bool.       (* does [import wandb] succeed *)
Variable peers : Z -> list stats.
  (* the ddp_stats tensors the other ranks bring to the all_reduce of
     step batch_idx *)
Variable get_last_lr : Z -> Q.          (* scheduler.get_last_lr()[0] *)
Variable max_memory_reserved : Z -> Z.
Variable max_memory_allocated : Z -> Z.

Definition time_time : M Q :=
  fun f => (Ok (clock (ticks f)),
            mk_frame (ddp_stats f) (start f) (loop_start f) (train_loss f)
                     (g_norm f) (new_tokens_seen f) (S (ticks f)) (trace f)).

(** [dist.all_reduce(t, op=dist.ReduceOp.SUM)]: every rank ends up
    with the sum of all the tensors. *)
Definition all_reduce_SUM (own : stats) (others : list stats) : stats :=
  fold_left stats_add others own.

(** The arguments of [train]. *)
Variable cfg : train_config.
Variable model : Model.
Variable rank : Z.
Variable train_loader_handle : Loader.
Variable optimizer : Optimizer.
Variable profiler : bool.               (* is a profiler given *)
Variable start_step : Z.
Variable tokens_seen : Z.

(** Lines 32-54. *)
Definition wandb_setup : M unit :=
  when (use_wandb cfg)
    ((if wandb_installed then ret tt else raise ImportError) ;;
     when (rank =? 0)
       (emit (EvPrintMsg "--> wandb is enabled! Make sure to pass your wandb api key via WANDB_API_KEY") ;;
        emit (EvWandbInit (wandb_project_name cfg) (wandb_dir cfg)
                        (wandb_run_id cfg)))).

(** Lines 73, 77, 78. *)
Definition accumulate (d : stats) (b : batch) : stats :=
  mk_stats (sum_loss d + loss_item b)%Q (sum_gnorm d + grad_norm_item b)%Q
           (count d + 1)%Q.

(** Lines 84-133: the body of [if batch_idx % cfg.report_interval == 0]. *)
Definition report (batch_idx : Z) : M unit :=
  d <- get ddp_stats ;;
  emit (EvAllReduce batch_idx d) ;;
  set_ddp_stats (all_reduce_SUM d (peers batch_idx)) ;;
  d <- get ddp_stats ;;
  let train_loss_ := (sum_loss d / count d)%Q in
  set_train_loss train_loss_ ;;
  let g_norm_ := (sum_gnorm d / count d)%Q in
  set_g_norm g_norm_ ;;
  now_ <- time_time ;;
  ls <- get loop_start ;;
  let elapsed_time := (now_ - ls)%Q in
  world_size <-
    match environ_WORLD_SIZE with
    | Some w => ret w
    | None => raise (KeyError "WORLD_SIZE")
    end ;;
  let new_tokens_seen_ :=
    (batch_idx - start_step) * world_size * batch_size cfg * seq_length cfg in
  set_new_tokens_seen new_tokens_seen_ ;;
  when (rank =? 0)
    (let total_tokens_seen := tokens_seen + new_tokens_seen_ in
     let current_loss := train_loss_ in
     let current_lr := get_last_lr batch_idx in
     let current_gnorm := g_norm_ in
     per_gpu <- py_div (inject_Z new_tokens_seen_) (inject_Z world_size) ;;
     per_sec <- py_div per_gpu elapsed_time ;;
     let overall_throughput := py_int per_sec in
     let reserved_mem := max_memory_reserved batch_idx in
     let allocated_mem := max_memory_allocated batch_idx in
     emit (EvPrint "step:" (VInt batch_idx)) ;;
     emit (EvPrint "tokens seen:" (VInt total_tokens_seen)) ;;
     emit (EvPrint "loss:" (VFloat current_loss)) ;;
     emit (EvPrint "gradient norm:" (VFloat current_gnorm)) ;;
     now2 <- time_time ;;
     st <- get start ;;
     speed <- py_div (now2 - st)%Q (inject_Z (report_interval cfg)) ;;
     emit (EvPrint "speed for these steps:" (VFloat speed)) ;;
       (* the printed label also spells out cfg.report_interval *)
     overall <- py_div elapsed_time (inject_Z (batch_idx - start_step)) ;;
     emit (EvPrint "overall speed:" (VFloat overall)) ;;
     emit (EvPrint "LR:" (VFloat current_lr)) ;;
     emit (EvPrint "reserved memory:" (VInt reserved_mem)) ;;
     emit (EvPrint "allocated memory:" (VInt allocated_mem)) ;;
     emit (EvPrint "overall token per gpu per sec:" (VInt overall_throughput)) ;;
     all_per_sec <- py_div (inject_Z new_tokens_seen_) elapsed_time ;;
     emit (EvPrint "token per day:"
                 (VInt (py_int (all_per_sec * inject_Z 3600 * inject_Z 24)%Q))) ;;
     when (use_wandb cfg)
       (emit (EvWandbLog
                (mk_wandb_metrics current_lr current_loss current_gnorm
                   total_tokens_seen overall_throughput reserved_mem
                   allocated_mem)
                batch_idx))) ;;
  now3 <- time_time ;;
  set_start now3 ;;
  set_ddp_stats zeros.

(** Lines 136-143. The arguments of [checkpointer.save] are evaluated
    before the call. *)
Definition checkpoint (batch_idx : Z) : M unit :=
  nts <- load "new_tokens_seen" new_tokens_seen ;;
  emit (EvSave batch_idx model optimizer train_loader_handle
             (tokens_seen + nts)).

(** Lines 64-143: one iteration of the loop. *)
Definition train_step (batch_idx : Z) (b : batch) : M unit :=
  d <- get ddp_stats ;;
  set_ddp_stats (accumulate d b) ;;
  when profiler (emit EvProfilerStep) ;;
  r <- py_mod batch_idx (report_interval cfg) ;;
  when (r =? 0) (report batch_idx) ;;
  c <- py_mod batch_idx (checkpoint_interval cfg) ;;
  when (c =? 0) (checkpoint batch_idx).

(** Lines 61-63: [for batch_idx, ... in enumerate(train_loader, ...)];
    the list holds the batches the loader yields. *)
Fixpoint train_loop (train_loader : list batch) (batch_idx : Z) : M unit :=
  match train_loader with
  | [] => ret tt
  | b :: rest =>
      if batch_idx >? num_steps cfg then ret tt
      else train_step batch_idx b ;; train_loop rest (batch_idx + 1)
  end.

(** Lines 57-60. *)
Definition init_locals : M unit :=
  set_ddp_stats zeros ;;
  t0 <- time_time ;;
  set_start t0 ;;
  t1 <- time_time ;;
  set_loop_start t1.

(** The frame on entry: nothing assigned, nothing done. *)
Definition entry : frame := mk_frame zeros 0 0 None None None 0 [].

(** Lines 32-143: everything before the [return]. *)
Definition run_loop (train_loader : list batch) : M unit :=
  wandb_setup ;;
  init_locals ;;
  train_loop train_loader (start_step + 1).

(** Lines 19-145. *)
Definition train_body (train_loader : list batch) : M Q :=
  run_loop train_loader ;;
  load "train_loss" train_loss.

Definition train (train_loader : list batch) : result Q * frame :=
  train_body train_loader entry.

(** ** Reading a trace *)

(** The events that report statistics: a printed value or a wandb log. *)
Definition is_statistic (e : event) : bool :=
  match e with
  | EvPrint _ _ | EvWandbLog _ _ => true
  | _ => false
  end.

Definition is_save (e : event) : bool :=
  match e with
  | EvSave _ _ _ _ _ => true
  | _ => false
  end.

Definition is_all_reduce (e : event) : bool :=
  match e with
  | EvAllReduce _ _ => true
  | _ => false
  end.

(** The values printed under a label, in order. *)
Definition printed (label : string) (tr : list event) : list pyval :=
  flat_map (fun e => match e with
                     | EvPrint l v => if String.eqb l label then [v] else []
                     | _ => []
                     end) tr.

(** The step indices and token counts handed to [checkpointer.save]. *)
Definition saved (tr : list event) : list (Z * Z) :=
  flat_map (fun e => match e with
                     | EvSave i _ _ _ t => [(i, t)]
                     | _ => []
                     end) tr.

(** The step index of the last collective in a trace. *)
Definition note_reduce (acc : option Z) (e : event) : option Z :=
  match e with
  | EvAllReduce i _ => Some i
  | _ => acc
  end.

Definition last_reduce (tr : list event) : option Z :=
  fold_left note_reduce tr None.

(** Lines 89-91: the token count computed at the report boundary [j]
    with world size [ws]. *)
Definition tokens_delta (j ws : Z) : Z :=
  (j - start_step) * ws * batch_size cfg * seq_length cfg.

(** A save at step [i] with token count [t] reuses what the last
    collective before it, at the report boundary [j], computed. *)
Definition reuses_last_report (last : option Z) (i t : Z) : Prop :=
  exists j ws,
    last = Some j /\ environ_WORLD_SIZE = Some ws /\
    start_step < j <= i /\
    report_interval cfg <> 0 /\ j mod report_interval cfg = 0 /\
    t = tokens_seen + tokens_delta j ws.

(** Every save of a trace reuses the last report before it; [last] is
    the last collective before the trace. *)
Fixpoint saves_follow (last : option Z) (tr : list event) : Prop :=
  match tr with
  | [] => True
  | e :: tr' =>
      match e with
      | EvSave i _ _ _ t => reuses_last_report last i t
      | _ => True
      end /\ saves_follow (note_reduce last e) tr'
  end.

(** ** Averages *)

(** What [ddp_stats] holds on a rank that started from zero and went
    through the batches [xs] (lines 73, 77, 78). *)
Definition local_stats (xs : list batch) : stats :=
  fold_left accumulate xs zeros.

Fixpoint sumQ (qs : list Q) : Q :=
  match qs with
  | [] => 0%Q
  | q :: rest => (q + sumQ rest)%Q
  end.

(** The arithmetic mean. *)
Definition mean (qs : list Q) : Q :=
  (sumQ qs / inject_Z (Z.of_nat (List.length qs)))%Q.

(** The batches a rank has gone through since its accumulator was last
    zero, after the loop has consumed [l] from step [i] on with [acc]
    pending at the start. *)
Fixpoint pending (acc l : list batch) (i : Z) : list batch :=
  match l with
  | [] => acc
  | b :: rest =>
      if i >? num_steps cfg then acc
      else pending (if i mod report_interval cfg =? 0 then []
                    else acc ++ [b]) rest (i + 1)
  end.

(** ** What holds along a run *)

(** What holds of a frame when control leaves a computation: [P] when it
    ends normally, [R e] when it raises [e]. *)
Definition leaves {A} (P : frame -> Prop) (R : exn -> frame -> Prop)
  (out : result A * frame) : Prop :=
  match out with
  | (Ok _, f) => P f
  | (Raise e, f) => R e f
  end.

(** What the set-up lines (32-60) leave behind: no local of the loop
    assigned, an empty accumulator, a trace with at most the wandb
    start-up events, and [loop_start] read from the clock's second
    tick. *)
Definition fresh (f : frame) : Prop :=
  train_loss f = None /\ new_tokens_seen f = None /\ ddp_stats f = zeros /\
  Forall (fun e => match e with
                   | EvPrintMsg _ | EvWandbInit _ _ _ => True
                   | _ => False
                   end) (trace f) /\
  loop_start f = clock 1.

Definition silent (tr : list event) : bool :=
  forallb (fun e => negb (is_statistic e || is_save e)) tr.

(** What the loop keeps true before step [k]: every save so far reused
    the last report before it, and [new_tokens_seen] holds what the last
    collective of the trace computed, or nothing when there was none. *)
Definition tokens_invariant (k : Z) (f : frame) : Prop :=
  saves_follow None (trace f) /\
  match last_reduce (trace f) with
  | None => new_tokens_seen f = None
  | Some j =>
      start_step < j < k /\
      report_interval cfg <> 0 /\ j mod report_interval cfg = 0 /\
      exists ws, environ_WORLD_SIZE = Some ws /\
                 new_tokens_seen f = Some (tokens_delta j ws)
  end.

(** ** More ways to read a trace *)

(** The collectives the worker entered, in order: the step index and
    the tensor it brought. *)
Definition contributions (tr : list event) : list (Z * stats) :=
  flat_map (fun e => match e with
                     | EvAllReduce i d => [(i, d)]
                     | _ => []
                     end) tr.

Definition reduced (tr : list event) : list Z := map fst (contributions tr).

(** The number of [profiler.step()] calls. *)
Definition profiler_steps (tr : list event) : nat :=
  List.length (filter (fun e => match e with
                                | EvProfilerStep => true
                                | _ => false
                                end) tr).

(** What reaches the console or wandb. *)
Definition is_output (e : event) : bool :=
  match e with
  | EvPrint _ _ | EvPrintMsg _ | EvWandbInit _ _ _ | EvWandbLog _ _ => true
  | _ => false
  end.

(** The dictionaries handed to [wandb.log], each with its [step]. *)
Definition logged (tr : list event) : list (wandb_metrics * Z) :=
  flat_map (fun e => match e with
                     | EvWandbLog m i => [(m, i)]
                     | _ => []
                     end) tr.

(** ** The iterations of the loop *)

(** The integers [a], [a + 1], ..., [b - 1]. *)
Definition range (a b : Z) : list Z :=
  map (fun n => a + Z.of_nat n) (seq 0 (Z.to_nat (b - a))).

(** The number of iterations the loop of lines 61-63 makes when it is
    entered at step index [i] with a loader that yields [n] batches: it
    stops when the loader is exhausted or the index exceeds num_steps. *)
Definition iterations_from (n : nat) (i : Z) : Z :=
  Z.min (Z.of_nat n) (Z.max 0 (num_steps cfg + 1 - i)).

(** The same for a call of [train], whose first index is
    start_step + 1. *)
Definition iterations (n : nat) : Z := iterations_from n (start_step + 1).

(** The step indices of a call of [train] on [n] batches. *)
Definition step_indices (n : nat) : list Z :=
  range (start_step + 1) (start_step + 1 + iterations n).

Definition is_report_step (i : Z) : bool := i mod report_interval cfg =? 0.
Definition is_checkpoint_step (i : Z) : bool :=
  i mod checkpoint_interval cfg =? 0.

(** The batches behind each collective of a run: those the loop went
    through since the previous collective, or since the start. [acc]
    holds the batches pending when the loop is at step [i]. *)
Fixpoint intervals (acc l : list batch) (i : Z) : list (Z * list batch) :=
  match l with
  | [] => []
  | b :: rest =>
      if i >? num_steps cfg then []
      else if i mod report_interval cfg =? 0
           then (i, acc ++ [b]) :: intervals [] rest (i + 1)
           else intervals (acc ++ [b]) rest (i + 1)
  end.

(** ** The frame at the head of the loop *)

(** What lines 32-54 emit when [import wandb] succeeds. *)
Definition startup_events : list event :=
  if use_wandb cfg && (rank =? 0)
  then [EvPrintMsg "--> wandb is enabled! Make sure to pass your wandb api key via WANDB_API_KEY";
        EvWandbInit (wandb_project_name cfg) (wandb_dir cfg) (wandb_run_id cfg)]
  else [].

(** The frame lines 32-60 leave behind: two clock readings, nothing
    else assigned. *)
Definition loop_entry : frame :=
  mk_frame zeros (clock 0) (clock 1) None None None 2 startup_events.

(** The frame after lines 64-81 of an iteration: the batch is in the
    accumulator and the profiler, if any, has stepped. *)
Definition prologue (b : batch) (f : frame) : frame :=
  mk_frame (accumulate (ddp_stats f) b) (start f) (loop_start f)
           (train_loss f) (g_norm f) (new_tokens_seen f) (ticks f)
           (if profiler then trace f ++ [EvProfilerStep] else trace f).

(** The wall time a report at frame [f] measures since the loop began
    (line 87). *)
Definition elapsed (f : frame) : Q := (clock (ticks f) - loop_start f)%Q.

(** The divisions of lines 97-118, all on rank 0: which of them has a
    zero divisor. *)
Definition zero_divisor (i ws : Z) (f : frame) : bool :=
  (ws =? 0) || Qeq_bool (elapsed f) 0 || (report_interval cfg =? 0) ||
  (i - start_step =? 0).

(** The average loss of line 85, from what this worker brought to the
    collective of step [i]. *)
Definition average_loss (i : Z) (d : stats) : Q :=
  (sum_loss (all_reduce_SUM d (peers i)) /
   count (all_reduce_SUM d (peers i)))%Q.

(** The last report boundary at or before step [i], for a positive
    report_interval. *)
Definition last_boundary (i : Z) : Z := i - i mod report_interval cfg.

(** ** What the loop keeps, and how a run ends *)

(** What the trace holds when the loop is about to run step [k]. *)
Definition on_schedule (k : Z) (h : frame) : Prop :=
  start_step + 1 <= k /\
  reduced (trace h) = filter is_report_step (range (start_step + 1) k) /\
  map fst (saved (trace h)) =
  filter is_checkpoint_step (range (start_step + 1) k) /\
  Z.of_nat (profiler_steps (trace h)) =
  (if profiler then k - (start_step + 1) else 0) /\
  printed "step:" (trace h) =
  (if rank =? 0
   then map VInt (filter is_report_step (range (start_step + 1) k))
   else []) /\
  map snd (logged (trace h)) =
  (if rank =? 0
   then if use_wandb cfg
        then filter is_report_step (range (start_step + 1) k) else []
   else []).

(** A trace with nothing for the console or wandb. *)
Definition mute (tr : list event) : bool :=
  forallb (fun e => negb (is_output e)) tr.

(** The last collective of a trace, if any. *)
Definition last_contribution (tr : list event) : option (Z * stats) :=
  List.last (map Some (contributions tr)) None.

(** Along the loop [train_loss] holds the average computed at the last
    collective, and nothing before the first. *)
Definition holds_last_average (h : frame) : Prop :=
  train_loss h =
  match last_contribution (trace h) with
  | Some (i, d) => Some (average_loss i d)
  | None => None
  end.

(** What the loop keeps true before step [k] in a run that goes
    through: the clock reading of line 60 stays in [loop_start], and
    once a report step is behind, [train_loss] and [new_tokens_seen]
    are assigned. *)
Definition well_under_way (k : Z) (h : frame) : Prop :=
  start_step < k /\ loop_start h = clock 1 /\ (2 <= ticks h)%nat /\
  ((exists j, start_step < j < k /\ j mod report_interval cfg = 0) ->
   new_tokens_seen h <> None /\ train_loss h <> None).

(** Why an iteration raised: the cause of each exception, read at the
    frame the iteration started from. An iteration that raises has not
    saved. *)
Definition step_failure (k : Z) (h : frame) (e : exn) : Prop :=
  match e with
  | ImportError | ProbeError _ => False
  | KeyError key =>
      key = "WORLD_SIZE" /\ environ_WORLD_SIZE = None /\
      report_interval cfg <> 0 /\ k mod report_interval cfg = 0
  | ZeroDivisionError =>
      report_interval cfg = 0 \/ checkpoint_interval cfg = 0 \/
      (rank = 0 /\ k mod report_interval cfg = 0 /\
       (environ_WORLD_SIZE = Some 0 \/
        (clock (ticks h) == loop_start h)%Q))
  | UnboundLocalError name =>
      name = "new_tokens_seen" /\
      report_interval cfg <> 0 /\ checkpoint_interval cfg <> 0 /\
      k mod checkpoint_interval cfg = 0 /\
      k mod report_interval cfg <> 0 /\ new_tokens_seen h = None
  end.

(** Why a call of [train] raised. *)
Definition train_failure (l : list batch) (e : exn) : Prop :=
  match e with
  | ImportError => use_wandb cfg = true /\ wandb_installed = false
  | ProbeError _ => False
  | KeyError key => key = "WORLD_SIZE" /\ environ_WORLD_SIZE = None
  | ZeroDivisionError =>
      report_interval cfg = 0 \/ checkpoint_interval cfg = 0 \/
      (rank = 0 /\
       (environ_WORLD_SIZE = Some 0 \/
        exists n, (2 <= n)%nat /\ (clock n == clock 1)%Q))
  | UnboundLocalError name =>
      (name = "new_tokens_seen" /\
       report_interval cfg <> 0 /\ checkpoint_interval cfg <> 0 /\
       exists i, start_step < i <= num_steps cfg /\
                 i mod checkpoint_interval cfg = 0 /\
                 forall j, start_step < j <= i ->
                           j mod report_interval cfg <> 0) \/
      (name = "train_loss" /\
       forall j, In j (step_indices (List.length l)) ->
                 j mod report_interval cfg <> 0)
  end.

(** What the loop keeps true before step [k], with a positive
    report_interval: every save so far was handed the tokens of the
    steps up to the last report step at or before it, and
    [new_tokens_seen], once assigned, holds the tokens of the steps up
    to the last report step before [k]. *)
Definition counts_to_last_boundary (ws k : Z) (h : frame) : Prop :=
  Forall (fun p => snd p = tokens_seen + tokens_delta (last_boundary (fst p)) ws)
         (saved (trace h)) /\
  (new_tokens_seen h = None \/
   new_tokens_seen h = Some (tokens_delta (last_boundary (k - 1)) ws)).

(** ** Facts about the loop *)

(** Running a computation symbolically, from a frame given by its
    fields: unfold the monad and the blocks of [train] and read the
    fields of the frames that are built. *)
Ltac read_frame :=
  cbn [ddp_stats start loop_start train_loss g_norm new_tokens_seen ticks
       trace fst snd] in *.

Ltac unfold_m :=
  cbv [train_step report checkpoint wandb_setup init_locals when py_mod
       py_div load emit set_ddp_stats set_start set_train_loss set_g_norm
       set_new_tokens_seen set_loop_start time_time update get bind ret
       raise entry
       ddp_stats start loop_start train_loss g_norm new_tokens_seen ticks
       trace fst snd].

Ltac break_if :=
  match goal with
  | |- context [if ?c then _ else _] => destruct c eqn:?
  | |- context [match ?c with Some _ => _ | None => _ end] => destruct c eqn:?
  end.

(** The loop rule: an invariant [P], which may mention the index of the
    next step, that every iteration keeps or leaves by raising into
    [R]. *)
Lemma train_loop_rule_ix (P : Z -> frame -> Prop) (R : exn -> frame -> Prop)
  (l : list batch) :
  forall i f,
    (forall j b g, i <= j <= num_steps cfg -> P j g ->
                   leaves (P (j + 1)) R (train_step j b g)) ->
    P i f ->
    leaves (fun g => exists k, i <= k /\ P k g) R (train_loop l i f).
Proof.
  induction l as [|b rest IH]; intros i f Hstep Hf; cbn [train_loop leaves].
  - exists i; split; [lia|exact Hf].
  - destruct (i >? num_steps cfg) eqn:Hgt; cbn [leaves fst snd];
      [exists i; split; [lia|exact Hf]|].
    assert (Hi : i <= num_steps cfg) by lia.
    unfold bind.
    pose proof (Hstep i b f ltac:(lia) Hf) as Hs.
    destruct (train_step i b f) as [[[]|e] f'] eqn:Ets; cbn [leaves fst snd] in *.
    + assert (K : leaves (fun g => exists k, i + 1 <= k /\ P k g) R
                    (train_loop rest (i + 1) f')).
      { apply IH; [|exact Hs].
        intros j b' g Hj; apply Hstep; lia. }
      destruct (train_loop rest (i + 1) f') as [[[]|e] f'']; cbn [leaves fst snd] in *; auto.
      destruct K as (k & Hk & Pk). exists k; split; [lia|exact Pk].
    + exact Hs.
Qed.

(** The same rule for the whole body before [return train_loss]. *)
Lemma run_loop_rule_ix (P : Z -> frame -> Prop) (R : exn -> frame -> Prop)
  (l : list batch) :
  (forall f, fresh f -> P (start_step + 1) f) ->
  (forall j b g, start_step < j <= num_steps cfg -> P j g ->
                 leaves (P (j + 1)) R (train_step j b g)) ->
  R ImportError entry ->
  leaves (fun g => exists k, start_step < k /\ P k g) R (run_loop l entry).
Proof.
  intros Hinit Hstep Himp.
  unfold run_loop, wandb_setup, init_locals, when.
  assert (Hloop : forall f, fresh f ->
            leaves (fun g => exists k, start_step < k /\ P k g) R
                   (train_loop l (start_step + 1) f)).
  { intros f Hf.
    assert (K : leaves (fun g => exists k, start_step + 1 <= k /\ P k g) R
                    (train_loop l (start_step + 1) f)).
    { apply train_loop_rule_ix; [|apply Hinit, Hf].
      intros j b g Hj; apply Hstep; lia. }
    destruct (train_loop l (start_step + 1) f) as [[[]|e] f']; cbn [leaves fst snd] in *; auto.
    destruct K as (k & Hk & Pk). exists k; split; [lia|exact Pk]. }
  destruct (use_wandb cfg); [destruct wandb_installed|].
  - destruct (rank =? 0); unfold_m; apply Hloop; unfold fresh; read_frame;
      repeat split; auto; repeat constructor.
  - unfold_m. exact Himp.
  - unfold_m; apply Hloop; unfold fresh; read_frame; repeat split; auto.
Qed.

(** The rule for an invariant that does not mention the step index. *)
Lemma run_loop_rule (P : frame -> Prop) (R : exn -> frame -> Prop)
  (l : list batch) :
  (forall f, fresh f -> P f) ->
  (forall j b g, start_step < j <= num_steps cfg -> P g ->
                 leaves P R (train_step j b g)) ->
  R ImportError entry ->
  leaves P R (run_loop l entry).
Proof.
  intros Hinit Hstep Himp.
  pose proof (run_loop_rule_ix (fun _ => P) R l Hinit Hstep Himp) as K.
  destruct (run_loop l entry) as [[[]|e] f]; cbn [leaves fst snd] in *; auto.
  destruct K as (k & _ & Pk); exact Pk.
Qed.

(** An iteration that is not a report boundary leaves [train_loss]
    alone. *)
Lemma train_step_keeps_train_loss (i : Z) (b : batch) (f : frame) :
  (report_interval cfg = 0 \/ i mod report_interval cfg <> 0) ->
  train_loss (snd (train_step i b f)) = train_loss f.
Proof.
  intros Hnb. destruct f. unfold_m.
  destruct (report_interval cfg =? 0) eqn:E0;
    [destruct profiler; reflexivity|].
  destruct Hnb as [Hnb|Hnb]; [lia|].
  destruct (i mod report_interval cfg =? 0) eqn:E1; [lia|].
  destruct profiler; repeat (break_if; unfold_m); reflexivity.
Qed.


(** ** A missing WORLD_SIZE *)

Lemma silent_app (tr : list event) (e : event) :
  silent (tr ++ [e]) = silent tr && negb (is_statistic e || is_save e).
Proof.
  unfold silent. rewrite forallb_app. simpl. rewrite andb_true_r. reflexivity.
Qed.

Lemma existsb_snoc (p : event -> bool) (tr : list event) (e : event) :
  existsb p (tr ++ [e]) = existsb p tr || p e.
Proof. rewrite existsb_app. simpl. rewrite orb_false_r. reflexivity. Qed.

(** Without WORLD_SIZE an iteration either goes through without a
    collective, a report or a save, or raises; once the collective has
    been entered the exception is the [KeyError] of line 88. *)
Lemma train_step_without_world_size (i : Z) (b : batch) (f : frame) :
  environ_WORLD_SIZE = None ->
  train_loss f = None /\ new_tokens_seen f = None /\
  silent (trace f) = true /\ existsb is_all_reduce (trace f) = false ->
  leaves
    (fun g => train_loss g = None /\ new_tokens_seen g = None /\
              silent (trace g) = true /\
              existsb is_all_reduce (trace g) = false)
    (fun e g => silent (trace g) = true /\
                (existsb is_all_reduce (trace g) = true ->
                 e = KeyError "WORLD_SIZE"))
    (train_step i b f).
Proof.
  intros Henv (Hl & Hn & Hs & Hr).
  destruct f. read_frame. subst. unfold_m. rewrite Henv.
  destruct profiler; unfold_m;
    repeat (break_if; unfold_m);
    cbn [leaves];
    rewrite ?silent_app, ?existsb_snoc, ?Hs, ?Hr;
    cbn [is_statistic is_save is_all_reduce orb andb negb];
    repeat split; auto; discriminate.
Qed.

Lemma fresh_is_silent (f : frame) :
  fresh f ->
  silent (trace f) = true /\ existsb is_all_reduce (trace f) = false.
Proof.
  intros (_ & _ & _ & Htr & _). induction Htr as [|x tr Hx _ IH].
  - split; reflexivity.
  - destruct IH as [IH1 IH2]. unfold silent in *. cbn [forallb existsb].
    rewrite IH1, IH2. destruct x; try contradiction; split; reflexivity.
Qed.


(** ** What a checkpoint is handed *)

Lemma saves_follow_snoc (tr : list event) (e : event) :
  forall last,
    saves_follow last (tr ++ [e]) <->
    saves_follow last tr /\
    match e with
    | EvSave i _ _ _ t => reuses_last_report (fold_left note_reduce tr last) i t
    | _ => True
    end.
Proof.
  induction tr as [|x tr IH]; intros last; cbn [app saves_follow fold_left].
  - tauto.
  - rewrite IH. tauto.
Qed.

Lemma saves_follow_split (pre post : list event) (e : event) :
  forall last,
    saves_follow last (pre ++ e :: post) ->
    match e with
    | EvSave i _ _ _ t => reuses_last_report (fold_left note_reduce pre last) i t
    | _ => True
    end.
Proof.
  induction pre as [|x pre IH]; intros last; cbn [app saves_follow fold_left].
  - tauto.
  - intros [_ H]. apply IH, H.
Qed.

Lemma last_reduce_snoc (tr : list event) (e : event) :
  last_reduce (tr ++ [e]) = note_reduce (last_reduce tr) e.
Proof. unfold last_reduce. rewrite fold_left_app. reflexivity. Qed.

Ltac fold_last :=
  repeat match goal with
         | |- context [fold_left note_reduce ?t None] =>
             change (fold_left note_reduce t None) with (last_reduce t)
         end.

Lemma train_step_tokens_invariant (k : Z) (b : batch) (f : frame) :
  start_step < k ->
  tokens_invariant k f ->
  leaves (tokens_invariant (k + 1)) (fun _ g => saves_follow None (trace g))
         (train_step k b f).
Proof.
  intros Hk [Hs Hl].
  destruct f. read_frame.
  destruct (last_reduce trace0) as [j|] eqn:Elast;
    [destruct Hl as (Hj & Hri & Hjm & ws & Hws & Hn)|];
    unfold_m;
    (destruct profiler; unfold_m;
     repeat (break_if; unfold_m);
     cbn [leaves]; unfold tokens_invariant; read_frame;
     rewrite ?saves_follow_snoc; fold_last;
     rewrite ?last_reduce_snoc; cbn [note_reduce]; rewrite ?Elast;
     repeat split; auto; try lia; try discriminate;
     try (eexists; split; [eassumption|reflexivity]);
     try (eexists; split; [eassumption|assumption])).
  all: unfold reuses_last_report, tokens_delta in *.
  all: try (exists k, z; repeat split; auto; lia).
  all: exists j, ws; repeat split; auto; try lia; congruence.
Qed.

Lemma startup_trace_has_no_reduce (tr : list event) :
  Forall (fun e => match e with
                   | EvPrintMsg _ | EvWandbInit _ _ _ => True
                   | _ => False
                   end) tr ->
  forall last, saves_follow last tr /\ fold_left note_reduce tr last = last.
Proof.
  induction 1 as [|e tr He _ IH]; intros last; cbn [saves_follow fold_left].
  - auto.
  - destruct e; try contradiction; cbn [note_reduce];
      destruct (IH last); auto.
Qed.

(** The invariant holds all along a run of the loop. *)
Lemma run_loop_tokens_invariant (l : list batch) :
  leaves (fun g => exists k, start_step < k /\ tokens_invariant k g)
         (fun _ g => saves_follow None (trace g))
         (run_loop l entry).
Proof.
  apply run_loop_rule_ix.
  - intros f (_ & Hn & _ & Htr & _).
    destruct (startup_trace_has_no_reduce _ Htr None) as [Hs Hl].
    split; [exact Hs|]. unfold last_reduce. rewrite Hl. exact Hn.
  - intros j b g Hj Hg. apply train_step_tokens_invariant; [lia|exact Hg].
  - exact I.
Qed.

(** [return train_loss] does not touch the frame. *)
Lemma train_frame (l : list batch) :
  snd (train l) = snd (run_loop l entry).
Proof.
  unfold train, train_body, bind, load.
  destruct (run_loop l entry) as [[[]|e] f]; [|reflexivity].
  destruct (train_loss f); reflexivity.
Qed.

Lemma saved_snoc (tr : list event) (e : event) :
  saved (tr ++ [e]) =
  saved tr ++ match e with
              | EvSave i _ _ _ t => [(i, t)]
              | _ => []
              end.
Proof.
  unfold saved. rewrite flat_map_app. cbn [flat_map].
  rewrite app_nil_r. reflexivity.
Qed.

(** When checkpoint_interval is a multiple of report_interval (as with
    the defaults 200 and 20000), every checkpoint step is a report
    boundary: an iteration that goes through saves exactly when its
    index is a multiple of checkpoint_interval, and hands over the token
    count of this very step. *)
Lemma checkpoint_on_report_cadence (i ws : Z) (b : batch) (f g : frame) :
  report_interval cfg <> 0 ->
  checkpoint_interval cfg <> 0 ->
  (report_interval cfg | checkpoint_interval cfg) ->
  environ_WORLD_SIZE = Some ws ->
  train_step i b f = (Ok tt, g) ->
  saved (trace g) =
  saved (trace f) ++
  (if i mod checkpoint_interval cfg =? 0
   then [(i, tokens_seen + tokens_delta i ws)] else []).
Proof.
  intros Hri Hci Hdiv Hws Hstep.
  assert (Hd : (i mod checkpoint_interval cfg =? 0) = true ->
               (i mod report_interval cfg =? 0) = true).
  { intros H. apply Z.eqb_eq in H. apply Z.eqb_eq.
    apply Z.mod_divide; [exact Hri|].
    apply Z.divide_trans with (1 := Hdiv).
    apply Z.mod_divide; assumption. }
  assert (K : leaves
                (fun g => saved (trace g) =
                          saved (trace f) ++
                          (if i mod checkpoint_interval cfg =? 0
                           then [(i, tokens_seen + tokens_delta i ws)]
                           else []))
                (fun _ _ => True) (train_step i b f)).
  { clear Hstep g. destruct f. read_frame. unfold_m. rewrite Hws.
    destruct profiler; unfold_m;
      repeat (break_if; unfold_m); cbn [leaves]; auto;
      try discriminate;
      try discriminate (Hd eq_refl);
      rewrite ?saved_snoc, ?app_nil_r; unfold tokens_delta; reflexivity. }
  rewrite Hstep in K. exact K.
Qed.


(** ** The accumulator *)

Lemma report_resets_stats (i : Z) (f : frame) :
  leaves (fun g => ddp_stats g = zeros) (fun _ _ => True) (report i f).
Proof.
  destruct f. unfold_m.
  repeat (break_if; unfold_m); cbn [leaves]; auto.
Qed.

Lemma train_step_stats (i : Z) (b : batch) (f : frame) :
  leaves
    (fun g =>
       (i mod report_interval cfg = 0 /\ ddp_stats g = zeros) \/
       (i mod report_interval cfg <> 0 /\
        ddp_stats g = accumulate (ddp_stats f) b))
    (fun _ _ => True)
    (train_step i b f).
Proof.
  destruct f. unfold_m.
  destruct profiler; unfold_m;
    repeat (break_if; unfold_m); cbn [leaves]; auto;
    first [left; split; [lia|reflexivity] | right; split; [lia|reflexivity]].
Qed.


(** ** What a report prints *)

Lemma printed_snoc (label : string) (tr : list event) (e : event) :
  printed label (tr ++ [e]) =
  printed label tr ++ match e with
                      | EvPrint l v => if String.eqb l label then [v] else []
                      | _ => []
                      end.
Proof.
  unfold printed. rewrite flat_map_app. cbn [flat_map].
  rewrite app_nil_r. reflexivity.
Qed.

(** Comparing two labels that are both literals. *)
Ltac compare_labels :=
  repeat match goal with
         | |- context [String.eqb ?a ?b] =>
             let r := eval vm_compute in (String.eqb a b) in
             change (String.eqb a b) with r
         end;
  cbv iota; rewrite ?app_nil_r.

Lemma report_prints_throughput (i ws : Z) (f : frame) :
  rank = 0 ->
  environ_WORLD_SIZE = Some ws ->
  leaves
    (fun g =>
       printed "overall token per gpu per sec:" (trace g) =
       printed "overall token per gpu per sec:" (trace f) ++
       [VInt (py_int (inject_Z (tokens_delta i ws) / inject_Z ws /
                      (clock (ticks f) - loop_start f)))] /\
       printed "token per day:" (trace g) =
       printed "token per day:" (trace f) ++
       [VInt (py_int (inject_Z (tokens_delta i ws) /
                      (clock (ticks f) - loop_start f) *
                      inject_Z 3600 * inject_Z 24))])
    (fun _ _ => True)
    (report i f).
Proof.
  intros Hrank Hws. apply Z.eqb_eq in Hrank.
  destruct f. unfold_m. rewrite Hws, Hrank. unfold_m.
  repeat (break_if; unfold_m); cbn [leaves]; auto;
    rewrite !printed_snoc; compare_labels; unfold tokens_delta; auto.
Qed.

Lemma train_step_keeps_loop_start (i : Z) (b : batch) (f : frame) :
  loop_start (snd (train_step i b f)) = loop_start f.
Proof.
  destruct f. unfold_m.
  destruct profiler; unfold_m; repeat (break_if; unfold_m); reflexivity.
Qed.


(** ** The reported averages *)

Lemma sumQ_app (a b : list Q) : (sumQ (a ++ b) == sumQ a + sumQ b)%Q.
Proof.
  induction a as [|x a IH]; cbn [app sumQ].
  - ring.
  - rewrite IH. ring.
Qed.

Lemma sumQ_perm (a b : list Q) : Permutation a b -> (sumQ a == sumQ b)%Q.
Proof.
  induction 1 as [|x a b _ IH|x y a|a b c _ IH1 _ IH2]; cbn [sumQ].
  - reflexivity.
  - rewrite IH. reflexivity.
  - ring.
  - rewrite IH1. exact IH2.
Qed.

Lemma inject_length_app {A} (a b : list A) :
  (inject_Z (Z.of_nat (List.length (a ++ b))) ==
   inject_Z (Z.of_nat (List.length a)) + inject_Z (Z.of_nat (List.length b)))%Q.
Proof.
  rewrite length_app, Nat2Z.inj_add, inject_Z_plus. reflexivity.
Qed.

(** Accumulating batches adds up their losses and gradient norms and
    counts them. *)
Lemma fold_accumulate (xs : list batch) :
  forall d,
    (sum_loss (fold_left accumulate xs d) ==
     sum_loss d + sumQ (map loss_item xs) /\
     sum_gnorm (fold_left accumulate xs d) ==
     sum_gnorm d + sumQ (map grad_norm_item xs) /\
     count (fold_left accumulate xs d) ==
     count d + inject_Z (Z.of_nat (List.length xs)))%Q.
Proof.
  induction xs as [|x xs IH]; intros d.
  - cbn. repeat split; ring.
  - cbn [fold_left map sumQ]. destruct (IH (accumulate d x)) as (H1 & H2 & H3).
    rewrite H1, H2, H3.
    change (List.length (x :: xs)) with (S (List.length xs)).
    rewrite Nat2Z.inj_succ. unfold Z.succ. rewrite inject_Z_plus.
    cbn [accumulate sum_loss sum_gnorm count].
    repeat split; ring.
Qed.

(** The sum-reduction of the tensors of ranks that went through the
    batches [yss], one list per rank, added to [d]. *)
Lemma fold_stats_add (yss : list (list batch)) :
  forall d,
    (sum_loss (fold_left stats_add (map local_stats yss) d) ==
     sum_loss d + sumQ (map loss_item (List.concat yss)) /\
     sum_gnorm (fold_left stats_add (map local_stats yss) d) ==
     sum_gnorm d + sumQ (map grad_norm_item (List.concat yss)) /\
     count (fold_left stats_add (map local_stats yss) d) ==
     count d + inject_Z (Z.of_nat (List.length (List.concat yss))))%Q.
Proof.
  induction yss as [|ys yss IH]; intros d.
  - cbn. repeat split; ring.
  - cbn [map fold_left List.concat].
    destruct (IH (stats_add d (local_stats ys))) as (H1 & H2 & H3).
    destruct (fold_accumulate ys zeros) as (K1 & K2 & K3).
    fold (local_stats ys) in K1, K2, K3.
    rewrite H1, H2, H3, !map_app, !sumQ_app, inject_length_app.
    cbn [stats_add sum_loss sum_gnorm count].
    rewrite K1, K2, K3. cbn [zeros sum_loss sum_gnorm count].
    repeat split; ring.
Qed.

(** What an iteration at a report boundary leaves in [train_loss] and
    [g_norm], and prints on rank 0. *)
Lemma train_step_averages (i : Z) (b : batch) (f : frame) :
  report_interval cfg <> 0 ->
  i mod report_interval cfg = 0 ->
  let d := all_reduce_SUM (accumulate (ddp_stats f) b) (peers i) in
  leaves
    (fun g =>
       train_loss g = Some (sum_loss d / count d)%Q /\
       g_norm g = Some (sum_gnorm d / count d)%Q /\
       (rank = 0 ->
        printed "loss:" (trace g) =
        printed "loss:" (trace f) ++ [VFloat (sum_loss d / count d)] /\
        printed "gradient norm:" (trace g) =
        printed "gradient norm:" (trace f) ++ [VFloat (sum_gnorm d / count d)]))
    (fun _ _ => True)
    (train_step i b f).
Proof.
  intros Hri Hi d. subst d.
  apply Z.eqb_neq in Hri. apply Z.eqb_eq in Hi.
  destruct f. unfold_m. rewrite Hri, Hi.
  destruct profiler; unfold_m;
    repeat (break_if; unfold_m); cbn [leaves]; auto;
    (split; [reflexivity|split; [reflexivity|]]);
    intros Hrank; try (apply Z.eqb_eq in Hrank; congruence);
    rewrite !printed_snoc; compare_labels; auto.
Qed.

(** The loop, once the set-up lines have run. *)
Lemma run_loop_from_fresh (l : list batch) (g : frame) :
  run_loop l entry = (Ok tt, g) ->
  exists f, fresh f /\ train_loop l (start_step + 1) f = (Ok tt, g).
Proof.
  unfold run_loop, wandb_setup, init_locals, when.
  destruct (use_wandb cfg); [destruct wandb_installed|].
  - destruct (rank =? 0); unfold_m; intros H; eexists; (split; [|exact H]);
      unfold fresh; read_frame; repeat split; auto; repeat constructor.
  - unfold_m. discriminate.
  - unfold_m; intros H; eexists; (split; [|exact H]);
      unfold fresh; read_frame; repeat split; auto.
Qed.

(** Along the loop the accumulator holds exactly the batches seen since
    the last reduction, or since the start. *)
Lemma train_loop_accumulates (l : list batch) :
  forall i f g acc,
    ddp_stats f = local_stats acc ->
    train_loop l i f = (Ok tt, g) ->
    ddp_stats g = local_stats (pending acc l i).
Proof.
  induction l as [|b rest IH]; intros i f g acc Hf H; cbn [train_loop pending] in *.
  - injection H as H. subst g. exact Hf.
  - destruct (i >? num_steps cfg); [injection H as H; subst g; exact Hf|].
    unfold bind in H.
    pose proof (train_step_stats i b f) as K.
    destruct (train_step i b f) as [[[]|e] f']; [|discriminate].
    cbn [leaves] in K. refine (IH _ _ _ _ _ H).
    destruct K as [[Hm Hz]|[Hm Ha]].
    + apply Z.eqb_eq in Hm. rewrite Hm. exact Hz.
    + apply Z.eqb_neq in Hm. rewrite Hm, Ha, Hf.
      unfold local_stats. rewrite fold_left_app. reflexivity.
Qed.

Lemma run_loop_accumulates (l : list batch) (g : frame) :
  run_loop l entry = (Ok tt, g) ->
  ddp_stats g = local_stats (pending [] l (start_step + 1)).
Proof.
  intros H. destruct (run_loop_from_fresh l g H) as (f & Hf & Hl).
  apply (train_loop_accumulates l _ f g []); [apply Hf|exact Hl].
Qed.


(** ** The loop, step by step *)

Lemma contributions_snoc (tr : list event) (e : event) :
  contributions (tr ++ [e]) =
  contributions tr ++ match e with
                      | EvAllReduce i d => [(i, d)]
                      | _ => []
                      end.
Proof.
  unfold contributions. rewrite flat_map_app. cbn [flat_map].
  rewrite app_nil_r. reflexivity.
Qed.

Lemma logged_snoc (tr : list event) (e : event) :
  logged (tr ++ [e]) =
  logged tr ++ match e with
               | EvWandbLog m i => [(m, i)]
               | _ => []
               end.
Proof.
  unfold logged. rewrite flat_map_app. cbn [flat_map].
  rewrite app_nil_r. reflexivity.
Qed.

Lemma profiler_steps_snoc (tr : list event) (e : event) :
  profiler_steps (tr ++ [e]) =
  (profiler_steps tr + match e with
                       | EvProfilerStep => 1
                       | _ => 0
                       end)%nat.
Proof.
  unfold profiler_steps. rewrite filter_app, length_app.
  destruct e; reflexivity.
Qed.

Lemma forallb_snoc (p : event -> bool) (tr : list event) (e : event) :
  forallb p (tr ++ [e]) = forallb p tr && p e.
Proof. rewrite forallb_app. cbn [forallb]. rewrite andb_true_r. reflexivity. Qed.

Lemma Qeq_bool_inject_Z (z : Z) : Qeq_bool (inject_Z z) 0 = (z =? 0).
Proof.
  unfold Qeq_bool, inject_Z. cbn [Qnum Qden].
  rewrite Z.mul_1_r. reflexivity.
Qed.

Lemma range_nil (a : Z) : range a a = [].
Proof. unfold range. rewrite Z.sub_diag. reflexivity. Qed.

Lemma range_snoc (a b : Z) : a <= b -> range a (b + 1) = range a b ++ [b].
Proof.
  intros H. unfold range.
  replace (Z.to_nat (b + 1 - a)) with (S (Z.to_nat (b - a))) by lia.
  rewrite seq_S, map_app. cbn [map Nat.add].
  rewrite Z2Nat.id by lia. f_equal. f_equal. lia.
Qed.

(** An iteration, as the sequence of its three parts: lines 64-81, the
    report block behind its guard, the save behind its guard. *)
Lemma train_step_unfold (i : Z) (b : batch) (f : frame) :
  train_step i b f =
  if report_interval cfg =? 0 then (Raise ZeroDivisionError, prologue b f)
  else
    match (if i mod report_interval cfg =? 0
           then report i (prologue b f) else (Ok tt, prologue b f)) with
    | (Raise e, f2) => (Raise e, f2)
    | (Ok _, f2) =>
        if checkpoint_interval cfg =? 0 then (Raise ZeroDivisionError, f2)
        else if i mod checkpoint_interval cfg =? 0 then checkpoint i f2
             else (Ok tt, f2)
    end.
Proof.
  destruct f.
  cbv [train_step prologue bind get set_ddp_stats update when py_mod ret
       raise emit ddp_stats start loop_start train_loss g_norm
       new_tokens_seen ticks trace].
  destruct profiler;
    (destruct (report_interval cfg =? 0); [reflexivity|]);
    (destruct (i mod report_interval cfg =? 0);
     [match goal with
      | |- context [report i ?x] => destruct (report i x) as [[[]|e] f2]
      end; [|reflexivity]|]);
    (destruct (checkpoint_interval cfg =? 0); [reflexivity|]);
    destruct (i mod checkpoint_interval cfg =? 0); reflexivity.
Qed.

(** The body before the loop: either [import wandb] fails, or the loop
    is entered from [loop_entry]. *)
Lemma run_loop_unfold (l : list batch) :
  run_loop l entry =
  if use_wandb cfg && negb wandb_installed then (Raise ImportError, entry)
  else train_loop l (start_step + 1) loop_entry.
Proof.
  unfold run_loop, wandb_setup, init_locals, loop_entry, startup_events, when.
  destruct (use_wandb cfg); [destruct wandb_installed|];
    cbn [andb negb]; [destruct (rank =? 0)| |]; unfold_m; reflexivity.
Qed.

(** The loop rule for runs that end normally: an invariant indexed by
    the next step, and the index the loop stops at. *)
Lemma train_loop_partial (P : Z -> frame -> Prop) (l : list batch) :
  forall i f g,
    (forall j b h h', i <= j <= num_steps cfg -> P j h ->
                      train_step j b h = (Ok tt, h') -> P (j + 1) h') ->
    P i f ->
    train_loop l i f = (Ok tt, g) ->
    P (i + iterations_from (List.length l) i) g.
Proof.
  unfold iterations_from.
  induction l as [|b rest IH]; intros i f g Hstep Hf H; cbn [train_loop] in H.
  - injection H as H. subst g.
    replace (i + _) with i by (cbn [List.length]; lia). exact Hf.
  - destruct (i >? num_steps cfg) eqn:Hgt.
    + injection H as H. subst g.
      replace (i + _) with i by (cbn [List.length]; lia). exact Hf.
    + unfold bind in H.
      destruct (train_step i b f) as [[[]|e] f'] eqn:Ets; [|discriminate].
      replace (i + _) with
        (i + 1 + Z.min (Z.of_nat (List.length rest))
                       (Z.max 0 (num_steps cfg + 1 - (i + 1))))
        by (cbn [List.length]; lia).
      apply (IH (i + 1) f' g); [|apply (Hstep i b f f'); auto; lia|exact H].
      intros j b' h h' Hj. apply Hstep. lia.
Qed.

(** The loop rule for runs that cannot fail: every iteration goes
    through and keeps the invariant. *)
Lemma train_loop_total (P : Z -> frame -> Prop) (l : list batch) :
  forall i f,
    (forall j b h, i <= j <= num_steps cfg -> P j h ->
                   exists h', train_step j b h = (Ok tt, h') /\ P (j + 1) h') ->
    P i f ->
    exists g, train_loop l i f = (Ok tt, g) /\
              P (i + iterations_from (List.length l) i) g.
Proof.
  unfold iterations_from.
  induction l as [|b rest IH]; intros i f Hstep Hf; cbn [train_loop].
  - exists f. split; [reflexivity|].
    replace (i + _) with i by (cbn [List.length]; lia). exact Hf.
  - destruct (i >? num_steps cfg) eqn:Hgt.
    + exists f. split; [reflexivity|].
      replace (i + _) with i by (cbn [List.length]; lia). exact Hf.
    + destruct (Hstep i b f ltac:(lia) Hf) as (f' & Ets & Hf').
      destruct (IH (i + 1) f') as (g & Hg & Pg); [|exact Hf'|].
      { intros j b' h Hj. apply Hstep. lia. }
      exists g. unfold bind. rewrite Ets. split; [exact Hg|].
      replace (i + _) with
        (i + 1 + Z.min (Z.of_nat (List.length rest))
                       (Z.max 0 (num_steps cfg + 1 - (i + 1))))
        by (cbn [List.length]; lia).
      exact Pg.
Qed.

(** A run of the body that ends normally went through the loop from
    [loop_entry]. *)
Lemma run_loop_ok (l : list batch) (g : frame) :
  run_loop l entry = (Ok tt, g) ->
  (use_wandb cfg = false \/ wandb_installed = true) /\
  train_loop l (start_step + 1) loop_entry = (Ok tt, g).
Proof.
  rewrite run_loop_unfold.
  destruct (use_wandb cfg); [destruct wandb_installed|]; cbn [andb negb];
    intros H; try discriminate; auto.
Qed.

(** ** What a report does *)

(** Whether a report goes through. Without WORLD_SIZE it raises the
    [KeyError] of line 88. With it, only rank 0 divides (lines 97-118),
    and it raises [ZeroDivisionError] exactly when one of the divisors
    is zero: the world size, the time since the loop began,
    report_interval, or the number of steps since start_step. *)
Lemma report_outcome (i : Z) (f : frame) :
  fst (report i f) =
  match environ_WORLD_SIZE with
  | None => Raise (KeyError "WORLD_SIZE")
  | Some ws =>
      if (rank =? 0) && zero_divisor i ws f then Raise ZeroDivisionError
      else Ok tt
  end.
Proof.
  unfold zero_divisor, elapsed.
  destruct environ_WORLD_SIZE as [ws|] eqn:Hws.
  - rewrite <- (Qeq_bool_inject_Z ws),
      <- (Qeq_bool_inject_Z (report_interval cfg)),
      <- (Qeq_bool_inject_Z (i - start_step)).
    destruct f. unfold_m. rewrite Hws.
    destruct (rank =? 0);
      destruct (Qeq_bool (inject_Z ws) 0);
      destruct (Qeq_bool (clock ticks0 - loop_start0) 0);
      destruct (Qeq_bool (inject_Z (report_interval cfg)) 0);
      destruct (Qeq_bool (inject_Z (i - start_step)) 0);
      unfold_m; try reflexivity;
      destruct (use_wandb cfg); reflexivity.
  - destruct f. unfold_m. rewrite Hws. reflexivity.
Qed.

(** The locals a report leaves behind. *)
Lemma report_frame (i : Z) (f : frame) :
  leaves
    (fun g =>
       ddp_stats g = zeros /\
       train_loss g = Some (average_loss i (ddp_stats f)) /\
       (exists ws, environ_WORLD_SIZE = Some ws /\
                   new_tokens_seen g = Some (tokens_delta i ws)) /\
       loop_start g = loop_start f /\
       (ticks f < ticks g)%nat)
    (fun _ g => loop_start g = loop_start f /\ (ticks f < ticks g)%nat)
    (report i f).
Proof.
  unfold average_loss, tokens_delta.
  destruct f. unfold_m.
  repeat (break_if; unfold_m); cbn [leaves]; repeat split; eauto; lia.
Qed.

(** The events a report adds to the trace: always the collective, never
    a save or a profiler step; when it goes through, the step line on
    rank 0 and one wandb record on rank 0 if wandb is in use. *)
Lemma report_events (i : Z) (f : frame) :
  leaves
    (fun g =>
       contributions (trace g) = contributions (trace f) ++ [(i, ddp_stats f)] /\
       saved (trace g) = saved (trace f) /\
       profiler_steps (trace g) = profiler_steps (trace f) /\
       printed "step:" (trace g) =
       printed "step:" (trace f) ++ (if rank =? 0 then [VInt i] else []) /\
       map snd (logged (trace g)) =
       map snd (logged (trace f)) ++
       (if rank =? 0 then if use_wandb cfg then [i] else [] else []))
    (fun _ g =>
       contributions (trace g) = contributions (trace f) ++ [(i, ddp_stats f)] /\
       saved (trace g) = saved (trace f) /\
       profiler_steps (trace g) = profiler_steps (trace f) /\
       logged (trace g) = logged (trace f))
    (report i f).
Proof.
  destruct f. unfold_m.
  repeat (break_if; unfold_m); cbn [leaves];
    rewrite ?contributions_snoc, ?saved_snoc, ?profiler_steps_snoc,
      ?printed_snoc, ?logged_snoc;
    compare_labels; rewrite ?app_nil_r, ?Nat.add_0_r, <- ?app_assoc;
    cbn [app]; rewrite ?map_app; cbn [map snd]; rewrite ?app_nil_r;
    repeat split; reflexivity.
Qed.

(** ** What a save and the first lines of an iteration do *)

Lemma checkpoint_effect (i : Z) (f : frame) :
  leaves
    (fun g =>
       exists nts,
         new_tokens_seen f = Some nts /\
         saved (trace g) = saved (trace f) ++ [(i, tokens_seen + nts)] /\
         contributions (trace g) = contributions (trace f) /\
         profiler_steps (trace g) = profiler_steps (trace f) /\
         printed "step:" (trace g) = printed "step:" (trace f) /\
         logged (trace g) = logged (trace f) /\
         ddp_stats g = ddp_stats f /\ train_loss g = train_loss f /\
         new_tokens_seen g = new_tokens_seen f /\
         loop_start g = loop_start f /\ ticks g = ticks f)
    (fun e g =>
       e = UnboundLocalError "new_tokens_seen" /\ g = f /\
       new_tokens_seen f = None)
    (checkpoint i f).
Proof.
  destruct f. unfold_m.
  destruct new_tokens_seen0 as [nts|]; unfold_m; cbn [leaves].
  - exists nts.
    rewrite saved_snoc, contributions_snoc, profiler_steps_snoc, printed_snoc,
      logged_snoc, !app_nil_r, Nat.add_0_r.
    repeat split; reflexivity.
  - repeat split; reflexivity.
Qed.

Lemma prologue_events (b : batch) (f : frame) :
  contributions (trace (prologue b f)) = contributions (trace f) /\
  saved (trace (prologue b f)) = saved (trace f) /\
  profiler_steps (trace (prologue b f)) =
  (profiler_steps (trace f) + if profiler then 1 else 0)%nat /\
  printed "step:" (trace (prologue b f)) = printed "step:" (trace f) /\
  logged (trace (prologue b f)) = logged (trace f).
Proof.
  unfold prologue. cbn [trace].
  destruct profiler;
    rewrite ?contributions_snoc, ?saved_snoc, ?profiler_steps_snoc,
      ?printed_snoc, ?logged_snoc, ?app_nil_r, ?Nat.add_0_r;
    repeat split; reflexivity.
Qed.

(** The events of an iteration that goes through: the profiler step if
    a profiler is given, the collective exactly when the index is a
    multiple of report_interval, with the accumulator as it stands after
    this batch, the step line and the wandb record of rank 0, and a save
    exactly when the index is a multiple of checkpoint_interval. *)
Lemma train_step_events (i : Z) (b : batch) (f g : frame) :
  train_step i b f = (Ok tt, g) ->
  contributions (trace g) =
  contributions (trace f) ++
  (if is_report_step i then [(i, accumulate (ddp_stats f) b)] else []) /\
  map fst (saved (trace g)) =
  map fst (saved (trace f)) ++ (if is_checkpoint_step i then [i] else []) /\
  profiler_steps (trace g) =
  (profiler_steps (trace f) + if profiler then 1 else 0)%nat /\
  printed "step:" (trace g) =
  printed "step:" (trace f) ++
  (if is_report_step i then if rank =? 0 then [VInt i] else [] else []) /\
  map snd (logged (trace g)) =
  map snd (logged (trace f)) ++
  (if is_report_step i
   then if rank =? 0 then if use_wandb cfg then [i] else [] else []
   else []).
Proof.
  rewrite train_step_unfold. unfold is_report_step, is_checkpoint_step.
  destruct (prologue_events b f) as (P1 & P2 & P3 & P4 & P5).
  destruct (report_interval cfg =? 0); [discriminate|].
  assert (K : forall f2,
    contributions (trace f2) = contributions (trace f) ++
      (if i mod report_interval cfg =? 0
       then [(i, accumulate (ddp_stats f) b)] else []) ->
    saved (trace f2) = saved (trace f) ->
    profiler_steps (trace f2) =
      (profiler_steps (trace f) + if profiler then 1 else 0)%nat ->
    printed "step:" (trace f2) = printed "step:" (trace f) ++
      (if i mod report_interval cfg =? 0
       then if rank =? 0 then [VInt i] else [] else []) ->
    map snd (logged (trace f2)) = map snd (logged (trace f)) ++
      (if i mod report_interval cfg =? 0
       then if rank =? 0 then if use_wandb cfg then [i] else [] else []
       else []) ->
    (if checkpoint_interval cfg =? 0 then (Raise ZeroDivisionError, f2)
     else if i mod checkpoint_interval cfg =? 0 then checkpoint i f2
          else (Ok tt, f2)) = (Ok tt, g) ->
    contributions (trace g) = contributions (trace f) ++
      (if i mod report_interval cfg =? 0
       then [(i, accumulate (ddp_stats f) b)] else []) /\
    map fst (saved (trace g)) = map fst (saved (trace f)) ++
      (if i mod checkpoint_interval cfg =? 0 then [i] else []) /\
    profiler_steps (trace g) =
      (profiler_steps (trace f) + if profiler then 1 else 0)%nat /\
    printed "step:" (trace g) = printed "step:" (trace f) ++
      (if i mod report_interval cfg =? 0
       then if rank =? 0 then [VInt i] else [] else []) /\
    map snd (logged (trace g)) = map snd (logged (trace f)) ++
      (if i mod report_interval cfg =? 0
       then if rank =? 0 then if use_wandb cfg then [i] else [] else []
       else [])).
  { intros f2 H1 H2 H3 H4 H5.
    destruct (checkpoint_interval cfg =? 0); [discriminate|].
    destruct (i mod checkpoint_interval cfg =? 0).
    - intros H. pose proof (checkpoint_effect i f2) as C.
      rewrite H in C. cbn [leaves] in C.
      destruct C as (nts & _ & C1 & C2 & C3 & C4 & C5 & _).
      rewrite C1, C2, C3, C4, C5, map_app, H1, H2, H3, H4, H5.
      repeat split; reflexivity.
    - intros H. injection H as H. subst g.
      rewrite H1, H2, H3, H4, H5, app_nil_r. repeat split; reflexivity. }
  destruct (i mod report_interval cfg =? 0).
  - pose proof (report_events i (prologue b f)) as E.
    destruct (report i (prologue b f)) as [[[]|e] f2]; [|discriminate].
    cbn [leaves] in E. destruct E as (E1 & E2 & E3 & E4 & E5).
    apply K.
    + rewrite E1, P1. reflexivity.
    + rewrite E2, P2. reflexivity.
    + rewrite E3, P3. reflexivity.
    + rewrite E4, P4. reflexivity.
    + rewrite E5, P5. reflexivity.
  - apply K; rewrite ?app_nil_r; auto. rewrite P5. reflexivity.
Qed.

(** ** The schedule of a run *)

Lemma startup_events_projections :
  contributions startup_events = [] /\ saved startup_events = [] /\
  profiler_steps startup_events = 0%nat /\
  printed "step:" startup_events = [] /\ logged startup_events = [].
Proof.
  unfold startup_events.
  destruct (use_wandb cfg && (rank =? 0)); repeat split; reflexivity.
Qed.

Lemma train_step_on_schedule (k : Z) (b : batch) (h h' : frame) :
  on_schedule k h -> train_step k b h = (Ok tt, h') -> on_schedule (k + 1) h'.
Proof.
  intros (Hk & H1 & H2 & H3 & H4 & H5) Hstep.
  destruct (train_step_events k b h h' Hstep) as (E1 & E2 & E3 & E4 & E5).
  unfold on_schedule, reduced in *.
  rewrite range_snoc by exact Hk. rewrite !filter_app. cbn [filter].
  rewrite E1, E2, E3, E4, E5, map_app, H1, H2, H4, H5.
  split; [lia|].
  split; [destruct (is_report_step k); reflexivity|].
  split; [destruct (is_checkpoint_step k); reflexivity|].
  split; [destruct profiler; lia|].
  split; destruct (is_report_step k), (rank =? 0), (use_wandb cfg);
    rewrite ?map_app, ?app_nil_r; reflexivity.
Qed.

(** A run of the body that ends normally has kept to the schedule, up
    to the index at which the loop stopped. *)
Lemma run_loop_on_schedule (l : list batch) (g : frame) :
  run_loop l entry = (Ok tt, g) ->
  on_schedule (start_step + 1 + iterations (List.length l)) g.
Proof.
  intros H. apply run_loop_ok in H. destruct H as [_ H].
  apply (train_loop_partial on_schedule l (start_step + 1) loop_entry g);
    [| |exact H].
  - intros j b h h' _. apply train_step_on_schedule.
  - destruct startup_events_projections as (S1 & S2 & S3 & S4 & S5).
    unfold on_schedule, reduced, loop_entry. cbn [trace].
    rewrite range_nil, S1, S2, S3, S4, S5. cbn [filter map].
    repeat split; try reflexivity; try lia;
      destruct profiler, (rank =? 0), (use_wandb cfg); try reflexivity; lia.
Qed.

Lemma in_range (a b i : Z) : In i (range a b) <-> a <= i < b.
Proof.
  unfold range. rewrite in_map_iff. split.
  - intros (n & Hn & Hin). apply in_seq in Hin. lia.
  - intros H. exists (Z.to_nat (i - a)). split; [lia|].
    apply in_seq. lia.
Qed.

(** X1. The loop makes min(len(train_loader), max(0, num_steps - start_step))
    iterations, and [profiler.step()] is called once in each: in a run
    whose loop ends normally that is the number of profiler steps when a
    profiler is given, and there is none when it is not. *)
Theorem profiler_steps_once_per_iteration (l : list batch) (g : frame) :
  run_loop l entry = (Ok tt, g) ->
  Z.of_nat (profiler_steps (trace g)) =
  if profiler
  then Z.min (Z.of_nat (List.length l)) (Z.max 0 (num_steps cfg - start_step))
  else 0.
Proof.
  intros H. destruct (run_loop_on_schedule l g H) as (_ & _ & _ & H3 & _).
  rewrite H3. unfold iterations, iterations_from.
  destruct profiler; [|reflexivity].
  replace (num_steps cfg + 1 - (start_step + 1))
    with (num_steps cfg - start_step) by lia.
  lia.
Qed.

(** X2. In a run whose loop ends normally the worker has entered the
    collective at the multiples of report_interval among the step
    indices start_step + 1, ..., start_step + iterations, once each and
    in order, whatever its rank; rank 0 has printed the step line at
    the same indices and, with wandb in use, logged one record for
    each; the other ranks have printed and logged none. *)
Theorem collectives_at_report_steps (l : list batch) (g : frame) :
  run_loop l entry = (Ok tt, g) ->
  reduced (trace g) = filter is_report_step (step_indices (List.length l)) /\
  (forall i, In i (reduced (trace g)) <->
             start_step < i <= start_step + iterations (List.length l) /\
             i mod report_interval cfg = 0) /\
  printed "step:" (trace g) =
  (if rank =? 0
   then map VInt (filter is_report_step (step_indices (List.length l)))
   else []) /\
  map snd (logged (trace g)) =
  (if rank =? 0
   then if use_wandb cfg
        then filter is_report_step (step_indices (List.length l)) else []
   else []).
Proof.
  intros H.
  destruct (run_loop_on_schedule l g H) as (_ & H1 & _ & _ & H4 & H5).
  unfold step_indices.
  split; [exact H1|]. split; [|split; [exact H4|exact H5]].
  intros i. rewrite H1, filter_In, in_range. unfold is_report_step.
  rewrite Z.eqb_eq. intuition lia.
Qed.

(** X3. In a run whose loop ends normally [checkpointer.save] has been
    called at the multiples of checkpoint_interval among the step
    indices, once each and in order, on every rank. *)
Theorem saves_at_checkpoint_steps (l : list batch) (g : frame) :
  run_loop l entry = (Ok tt, g) ->
  map fst (saved (trace g)) =
  filter is_checkpoint_step (step_indices (List.length l)) /\
  (forall i, In i (map fst (saved (trace g))) <->
             start_step < i <= start_step + iterations (List.length l) /\
             i mod checkpoint_interval cfg = 0).
Proof.
  intros H.
  destruct (run_loop_on_schedule l g H) as (_ & _ & H2 & _).
  unfold step_indices. split; [exact H2|].
  intros i. rewrite H2, filter_In, in_range. unfold is_checkpoint_step.
  rewrite Z.eqb_eq. intuition lia.
Qed.

(** The locals an iteration that goes through leaves behind, and the
    token count of its save. *)
Lemma train_step_frame (i : Z) (b : batch) (f g : frame) :
  train_step i b f = (Ok tt, g) ->
  report_interval cfg <> 0 /\ checkpoint_interval cfg <> 0 /\
  loop_start g = loop_start f /\ (ticks f <= ticks g)%nat /\
  (if is_report_step i
   then ddp_stats g = zeros /\
        train_loss g = Some (average_loss i (accumulate (ddp_stats f) b)) /\
        exists ws, environ_WORLD_SIZE = Some ws /\
                   new_tokens_seen g = Some (tokens_delta i ws)
   else ddp_stats g = accumulate (ddp_stats f) b /\
        train_loss g = train_loss f /\
        new_tokens_seen g = new_tokens_seen f) /\
  saved (trace g) =
  saved (trace f) ++
  (if is_checkpoint_step i
   then match new_tokens_seen g with
        | Some nts => [(i, tokens_seen + nts)]
        | None => []
        end
   else []) /\
  (is_checkpoint_step i = true -> new_tokens_seen g <> None).
Proof.
  rewrite train_step_unfold. unfold is_report_step, is_checkpoint_step.
  destruct (prologue_events b f) as (_ & P2 & _).
  destruct (report_interval cfg =? 0) eqn:Eri; [discriminate|].
  apply Z.eqb_neq in Eri.
  assert (K : forall f2,
    loop_start f2 = loop_start f -> (ticks f <= ticks f2)%nat ->
    saved (trace f2) = saved (trace f) ->
    (if checkpoint_interval cfg =? 0 then (Raise ZeroDivisionError, f2)
     else if i mod checkpoint_interval cfg =? 0 then checkpoint i f2
          else (Ok tt, f2)) = (Ok tt, g) ->
    checkpoint_interval cfg <> 0 /\
    loop_start g = loop_start f /\ (ticks f <= ticks g)%nat /\
    ddp_stats g = ddp_stats f2 /\ train_loss g = train_loss f2 /\
    new_tokens_seen g = new_tokens_seen f2 /\
    saved (trace g) =
    saved (trace f) ++
    (if i mod checkpoint_interval cfg =? 0
     then match new_tokens_seen g with
          | Some nts => [(i, tokens_seen + nts)]
          | None => []
          end
     else []) /\
    ((i mod checkpoint_interval cfg =? 0) = true -> new_tokens_seen g <> None)).
  { intros f2 H1 H2 H3.
    destruct (checkpoint_interval cfg =? 0) eqn:Eci; [discriminate|].
    apply Z.eqb_neq in Eci.
    destruct (i mod checkpoint_interval cfg =? 0).
    - intros H. pose proof (checkpoint_effect i f2) as C.
      rewrite H in C. cbn [leaves] in C.
      destruct C as (nts & Hn & C1 & _ & _ & _ & _ & C6 & C7 & C8 & C9 & C10).
      rewrite C1, C6, C7, C8, C9, C10, H1, H3, Hn.
      repeat split; auto. discriminate.
    - intros H. injection H as H. subst g.
      rewrite H3, app_nil_r. repeat split; auto. discriminate. }
  destruct (i mod report_interval cfg =? 0).
  - pose proof (report_frame i (prologue b f)) as F.
    pose proof (report_events i (prologue b f)) as E.
    destruct (report i (prologue b f)) as [[[]|e] f2]; [|discriminate].
    cbn [leaves] in F, E.
    destruct F as (F1 & F2 & F3 & F4 & F5). destruct E as (_ & E2 & _).
    intros H. apply K in H.
    + destruct H as (K1 & K2 & K3 & K4 & K5 & K6 & K7 & K8).
      rewrite K4, K5. rewrite K6 in K7, K8 |- *. cbn [prologue ddp_stats] in F2.
      repeat split; auto.
    + rewrite F4. reflexivity.
    + cbn [prologue ticks] in F5. lia.
    + rewrite E2. exact P2.
  - intros H. apply K in H.
    + destruct H as (K1 & K2 & K3 & K4 & K5 & K6 & K7 & K8).
      rewrite K4, K5. rewrite K6 in K7, K8 |- *. repeat split; auto.
    + reflexivity.
    + cbn [prologue ticks]. lia.
    + exact P2.
Qed.

(** ** The ranks that do not report *)

Lemma train_step_mute (i : Z) (b : batch) (f : frame) :
  rank <> 0 ->
  mute (trace f) = true ->
  mute (trace (snd (train_step i b f))) = true.
Proof.
  intros Hrank Hf. apply Z.eqb_neq in Hrank.
  destruct f. read_frame. unfold mute in *. unfold_m. rewrite Hrank.
  destruct profiler; unfold_m;
    repeat (break_if; unfold_m);
    rewrite ?forallb_snoc, ?Hf; reflexivity.
Qed.

(** A fact that every iteration keeps, however it ends, holds when
    the loop is left. *)
Lemma train_loop_keeps (P : frame -> Prop) (l : list batch) :
  (forall j b h, P h -> P (snd (train_step j b h))) ->
  forall i f, P f -> P (snd (train_loop l i f)).
Proof.
  intros Hstep. induction l as [|b rest IH]; intros i f Hf; cbn [train_loop].
  - exact Hf.
  - destruct (i >? num_steps cfg); [exact Hf|].
    unfold bind. pose proof (Hstep i b f Hf) as K.
    destruct (train_step i b f) as [[[]|e] f']; cbn [snd] in *.
    + apply IH, K.
    + exact K.
Qed.

(** X4. On a rank other than 0 [train] sends nothing to the console or to
    wandb, however the call ends: what such a rank does is enter the
    collectives, step the profiler and call the checkpointer. *)
Theorem other_ranks_are_mute (l : list batch) :
  rank <> 0 ->
  mute (trace (snd (train l))) = true.
Proof.
  intros Hrank. rewrite train_frame, run_loop_unfold.
  destruct (use_wandb cfg && negb wandb_installed); [reflexivity|].
  apply train_loop_keeps.
  - intros j b h. apply train_step_mute, Hrank.
  - apply Z.eqb_neq in Hrank.
    unfold loop_entry, startup_events. cbn [trace].
    rewrite Hrank, andb_false_r. reflexivity.
Qed.


(** ** The value [train] returns *)

(** [train] returns [v] exactly when the body ends normally with
    [train_loss] holding [v]. *)
Lemma train_ok_inv (l : list batch) (v : Q) :
  fst (train l) = Ok v ->
  exists g, run_loop l entry = (Ok tt, g) /\ train_loss g = Some v /\
            snd (train l) = g.
Proof.
  unfold train, train_body, bind, load.
  destruct (run_loop l entry) as [[[]|e] g]; [|discriminate].
  destruct (train_loss g) as [w|] eqn:Ew; cbn [fst snd]; [|discriminate].
  intros H. injection H as H. subst w. exists g. auto.
Qed.

Lemma train_step_holds_last_average (k : Z) (b : batch) (h h' : frame) :
  holds_last_average h -> train_step k b h = (Ok tt, h') ->
  holds_last_average h'.
Proof.
  unfold holds_last_average, last_contribution. intros Hh Hstep.
  destruct (train_step_events k b h h' Hstep) as (E1 & _).
  destruct (train_step_frame k b h h' Hstep) as (_ & _ & _ & _ & F & _).
  rewrite E1. destruct (is_report_step k).
  - destruct F as (_ & F & _). rewrite F, map_app. cbn [map].
    rewrite last_last. reflexivity.
  - destruct F as (_ & F & _). rewrite F, app_nil_r. exact Hh.
Qed.

Lemma last_map_fst (cs : list (Z * stats)) (i : Z) (d : stats) :
  List.last (map Some cs) None = Some (i, d) ->
  List.last (map fst cs) 0 = i.
Proof.
  induction cs as [|c cs IH]; [discriminate|].
  destruct cs as [|c' cs].
  - cbn. intros H. injection H as H. subst c. reflexivity.
  - intros H. change (List.last (map fst (c' :: cs)) 0 = i). apply IH, H.
Qed.

(** X5. What [train] returns is the average loss computed at the last
    collective of the run: the one at the last multiple of
    report_interval among the step indices, computed from the sum of
    what the workers had accumulated at that step. The batches of the
    steps after it do not enter the value. *)
Theorem train_returns_last_reported_average (l : list batch) (v : Q) :
  fst (train l) = Ok v ->
  exists i d,
    last_contribution (trace (snd (train l))) = Some (i, d) /\
    v = average_loss i d /\
    List.last (filter is_report_step (step_indices (List.length l))) 0 = i.
Proof.
  intros H. destruct (train_ok_inv l v H) as (g & Hrun & Hv & Hg).
  rewrite Hg.
  destruct (run_loop_on_schedule l g Hrun) as (_ & H1 & _).
  apply run_loop_ok in Hrun. destruct Hrun as [_ Hloop].
  assert (K : holds_last_average g).
  { apply (train_loop_partial (fun _ => holds_last_average) l
             (start_step + 1) loop_entry g); [| |exact Hloop].
    - intros j b h h' _. apply train_step_holds_last_average.
    - unfold holds_last_average, last_contribution, loop_entry.
      cbn [trace train_loss].
      destruct startup_events_projections as (S1 & _). rewrite S1.
      reflexivity. }
  unfold holds_last_average in K. rewrite Hv in K.
  destruct (last_contribution (trace g)) as [[i d]|] eqn:El; [|discriminate].
  injection K as K. exists i, d.
  split; [reflexivity|]. split; [exact K|].
  unfold step_indices. rewrite <- H1. unfold reduced.
  apply last_map_fst with (d := d). exact El.
Qed.

(** ** The batches behind each report *)

Lemma train_loop_intervals (l : list batch) :
  forall i f g acc,
    ddp_stats f = local_stats acc ->
    train_loop l i f = (Ok tt, g) ->
    contributions (trace g) =
    contributions (trace f) ++
    map (fun p => (fst p, local_stats (snd p))) (intervals acc l i).
Proof.
  induction l as [|b rest IH]; intros i f g acc Hf H;
    cbn [train_loop intervals] in *.
  - injection H as H. subst g. rewrite app_nil_r. reflexivity.
  - destruct (i >? num_steps cfg);
      [injection H as H; subst g; rewrite app_nil_r; reflexivity|].
    unfold bind in H.
    destruct (train_step i b f) as [[[]|e] f'] eqn:Ets; [|discriminate].
    destruct (train_step_events i b f f' Ets) as (E1 & _).
    destruct (train_step_frame i b f f' Ets) as (_ & _ & _ & _ & F & _).
    unfold is_report_step in *.
    assert (Ha : accumulate (ddp_stats f) b = local_stats (acc ++ [b])).
    { rewrite Hf. unfold local_stats. rewrite fold_left_app. reflexivity. }
    destruct (i mod report_interval cfg =? 0).
    + destruct F as (F & _).
      rewrite (IH (i + 1) f' g [] F H), E1, Ha, <- app_assoc. reflexivity.
    + destruct F as (F & _). rewrite Ha in F.
      rewrite (IH (i + 1) f' g (acc ++ [b]) F H), E1, app_nil_r. reflexivity.
Qed.

(** The groups of [intervals], followed by what is pending at the end,
    are the batches the loop went through, in order. *)
Lemma intervals_partition (l : list batch) :
  forall acc i,
    List.concat (map snd (intervals acc l i)) ++ pending acc l i =
    acc ++ firstn (Z.to_nat (iterations_from (List.length l) i)) l.
Proof.
  unfold iterations_from.
  induction l as [|b rest IH]; intros acc i; cbn [intervals pending].
  - rewrite firstn_nil, app_nil_r. reflexivity.
  - destruct (i >? num_steps cfg) eqn:Hgt.
    + replace (Z.to_nat _) with 0%nat by (cbn [List.length]; lia).
      cbn [firstn map List.concat app]. rewrite app_nil_r. reflexivity.
    + replace (Z.to_nat (Z.min (Z.of_nat (List.length (b :: rest)))
                               (Z.max 0 (num_steps cfg + 1 - i))))
        with (S (Z.to_nat (Z.min (Z.of_nat (List.length rest))
                                 (Z.max 0 (num_steps cfg + 1 - (i + 1))))))
        by (cbn [List.length]; lia).
      cbn [firstn].
      destruct (i mod report_interval cfg =? 0).
      * cbn [map snd List.concat]. rewrite <- !app_assoc, IH. reflexivity.
      * rewrite IH, <- app_assoc. reflexivity.
Qed.

Lemma mod_pred_of_multiple (i r : Z) :
  0 < r -> i mod r = 0 -> (i - 1) mod r = r - 1.
Proof.
  intros Hr Hi. symmetry.
  apply (Z.mod_unique (i - 1) r (i / r - 1) (r - 1)); [lia|].
  pose proof (Z.div_mod i r ltac:(lia)) as E. rewrite Hi in E. lia.
Qed.

Lemma mod_pred_of_other (i r : Z) :
  0 < r -> i mod r <> 0 -> (i - 1) mod r = i mod r - 1.
Proof.
  intros Hr Hi. symmetry.
  pose proof (Z.mod_pos_bound i r Hr) as B.
  apply (Z.mod_unique (i - 1) r (i / r) (i mod r - 1)); [lia|].
  pose proof (Z.div_mod i r ltac:(lia)) as E. lia.
Qed.

(** With a positive report_interval, the group behind the collective of
    step [j] holds report_interval batches, or j - start_step when the
    run began less than report_interval steps before [j]. *)
Lemma intervals_lengths (l : list batch) :
  0 < report_interval cfg ->
  forall acc i,
    start_step < i ->
    Z.of_nat (List.length acc) =
    Z.min ((i - 1) mod report_interval cfg) (i - 1 - start_step) ->
    Forall (fun p => Z.of_nat (List.length (snd p)) =
                     Z.min (report_interval cfg) (fst p - start_step))
           (intervals acc l i).
Proof.
  intros Hr. induction l as [|b rest IH]; intros acc i Hi Hacc;
    cbn [intervals]; [constructor|].
  destruct (i >? num_steps cfg); [constructor|].
  destruct (i mod report_interval cfg =? 0) eqn:Em.
  - apply Z.eqb_eq in Em.
    pose proof (mod_pred_of_multiple i _ Hr Em) as Ep.
    constructor.
    + cbn [fst snd]. rewrite length_app. cbn [List.length]. lia.
    + apply IH; [lia|].
      replace (i + 1 - 1) with i by lia. rewrite Em. cbn [List.length]. lia.
  - apply Z.eqb_neq in Em.
    pose proof (mod_pred_of_other i _ Hr Em) as Ep.
    pose proof (Z.mod_pos_bound i _ Hr) as B.
    apply IH; [lia|].
    replace (i + 1 - 1) with i by lia.
    rewrite length_app. cbn [List.length]. lia.
Qed.

(** X6. In a run whose loop ends normally, what the worker brings to each
    collective is the accumulation of exactly the batches it went
    through since the previous collective (since the start, for the
    first). These groups, in order and followed by the batches still in
    [ddp_stats] at the end, are the batches the loop consumed: every
    batch is counted in one report and one only, except those after the
    last report step, which are counted in none. *)
Theorem reports_partition_the_batches (l : list batch) (g : frame) :
  run_loop l entry = (Ok tt, g) ->
  contributions (trace g) =
  map (fun p => (fst p, local_stats (snd p)))
      (intervals [] l (start_step + 1)) /\
  ddp_stats g = local_stats (pending [] l (start_step + 1)) /\
  List.concat (map snd (intervals [] l (start_step + 1))) ++
  pending [] l (start_step + 1) =
  firstn (Z.to_nat (iterations (List.length l))) l.
Proof.
  intros H. split; [|split].
  - apply run_loop_ok in H. destruct H as [_ H].
    rewrite (train_loop_intervals l _ loop_entry g [] eq_refl H).
    unfold loop_entry. cbn [trace].
    destruct startup_events_projections as (S1 & _). rewrite S1. reflexivity.
  - apply run_loop_accumulates, H.
  - rewrite intervals_partition. reflexivity.
Qed.


(** ** When a run goes through *)

Lemma Qeq_bool_elapsed (a b : Q) :
  ~ (a == b)%Q -> Qeq_bool (a - b) 0 = false.
Proof.
  intros H. destruct (Qeq_bool (a - b) 0) eqn:E; [|reflexivity].
  apply Qeq_bool_iff in E. exfalso. apply H.
  rewrite <- (Qplus_0_l b), <- E. ring.
Qed.

(** An iteration goes through when the intervals are not zero,
    WORLD_SIZE is set and, on rank 0, is not zero and the clock has
    moved since the loop began, and when a save has a token count to
    hand over. *)
Lemma train_step_succeeds (k ws : Z) (b : batch) (h : frame) :
  report_interval cfg <> 0 -> checkpoint_interval cfg <> 0 ->
  environ_WORLD_SIZE = Some ws ->
  (rank = 0 -> ws <> 0) ->
  (rank = 0 -> ~ (clock (ticks h) == loop_start h)%Q) ->
  k <> start_step ->
  (is_checkpoint_step k = true ->
   is_report_step k = true \/ new_tokens_seen h <> None) ->
  exists h', train_step k b h = (Ok tt, h').
Proof.
  intros Hri Hci Hws Hws0 Hclock Hk Hcp.
  rewrite train_step_unfold. unfold is_report_step, is_checkpoint_step in *.
  apply Z.eqb_neq in Hri, Hci. rewrite Hri, Hci.
  destruct (k mod report_interval cfg =? 0).
  - pose proof (report_outcome k (prologue b h)) as O.
    pose proof (report_frame k (prologue b h)) as F.
    rewrite Hws in O.
    assert (Z0 : (rank =? 0) && zero_divisor k ws (prologue b h) = false).
    { destruct (rank =? 0) eqn:Er; [|reflexivity].
      apply Z.eqb_eq in Er. unfold zero_divisor, elapsed.
      cbn [prologue ticks loop_start andb].
      rewrite (Qeq_bool_elapsed _ _ (Hclock Er)), Hri.
      replace (ws =? 0) with false by (symmetry; apply Z.eqb_neq; auto).
      replace (k - start_step =? 0) with false
        by (symmetry; apply Z.eqb_neq; lia).
      reflexivity. }
    rewrite Z0 in O.
    destruct (report k (prologue b h)) as [[[]|e] f2]; cbn [fst] in O;
      [|discriminate].
    cbn [leaves] in F. destruct F as (_ & _ & (ws' & _ & Hn) & _).
    destruct (k mod checkpoint_interval cfg =? 0); [|eauto].
    pose proof (checkpoint_effect k f2) as C.
    destruct (checkpoint k f2) as [[[]|e] f3]; [eauto|].
    cbn [leaves] in C. destruct C as (_ & _ & C). congruence.
  - destruct (k mod checkpoint_interval cfg =? 0); [|eauto].
    destruct (Hcp eq_refl) as [Hc|Hc]; [discriminate|].
    pose proof (checkpoint_effect k (prologue b h)) as C.
    destruct (checkpoint k (prologue b h)) as [[[]|e] f3]; [eauto|].
    cbn [leaves] in C. destruct C as (_ & _ & C).
    cbn [prologue new_tokens_seen] in C. contradiction.
Qed.

Lemma train_step_well_under_way (k : Z) (b : batch) (h h' : frame) :
  well_under_way k h -> train_step k b h = (Ok tt, h') ->
  well_under_way (k + 1) h'.
Proof.
  intros (Hk & Hls & Ht & Hseen) Hh'.
  destruct (train_step_frame k b h h' Hh') as (_ & _ & F1 & F2 & F3 & _).
  split; [lia|]. split; [congruence|]. split; [lia|].
  intros (j' & Hj' & Hjm'). unfold is_report_step in F3.
  destruct (k mod report_interval cfg =? 0) eqn:Ek.
  - destruct F3 as (_ & F3 & ws' & _ & F4). rewrite F3, F4.
    split; discriminate.
  - destruct F3 as (_ & F3 & F4). rewrite F3, F4.
    apply Hseen. exists j'. split; [|exact Hjm'].
    apply Z.eqb_neq in Ek.
    assert (j' <> k) by congruence. lia.
Qed.

Lemma loop_entry_well_under_way : well_under_way (start_step + 1) loop_entry.
Proof.
  unfold well_under_way, loop_entry. cbn [loop_start ticks].
  split; [lia|]. split; [reflexivity|]. split; [lia|].
  intros (j' & Hj' & _). lia.
Qed.


(** ** How a run fails *)

Lemma zero_divisor_cause (k ws : Z) (h : frame) :
  report_interval cfg <> 0 -> k <> start_step ->
  zero_divisor k ws h = true ->
  ws = 0 \/ (clock (ticks h) == loop_start h)%Q.
Proof.
  intros Hri Hk. unfold zero_divisor, elapsed.
  apply Z.eqb_neq in Hri. rewrite Hri.
  replace (k - start_step =? 0) with false by (symmetry; apply Z.eqb_neq; lia).
  rewrite !orb_false_r. intros H. apply orb_true_iff in H.
  destruct H as [H|H].
  - left. apply Z.eqb_eq, H.
  - right. apply Qeq_bool_iff in H.
    rewrite <- (Qplus_0_l (loop_start h)), <- H. ring.
Qed.

Lemma train_step_failure (k : Z) (b : batch) (h h' : frame) (e : exn) :
  k <> start_step ->
  train_step k b h = (Raise e, h') ->
  step_failure k h e /\ saved (trace h') = saved (trace h).
Proof.
  intros Hk. rewrite train_step_unfold.
  destruct (prologue_events b h) as (_ & P2 & _).
  destruct (report_interval cfg =? 0) eqn:Eri.
  { intros H. injection H as H1 H2. subst e h'.
    apply Z.eqb_eq in Eri. split; [left; exact Eri|exact P2]. }
  apply Z.eqb_neq in Eri.
  destruct (k mod report_interval cfg =? 0) eqn:Ek.
  - apply Z.eqb_eq in Ek.
    pose proof (report_outcome k (prologue b h)) as O.
    pose proof (report_frame k (prologue b h)) as F.
    pose proof (report_events k (prologue b h)) as E.
    destruct (report k (prologue b h)) as [[[]|e'] f2];
      cbn [fst leaves] in O, F, E.
    + destruct E as (_ & E2 & _). destruct F as (_ & _ & (ws & _ & Hn) & _).
      destruct (checkpoint_interval cfg =? 0) eqn:Eci.
      { intros H. injection H as H1 H2. subst e h'.
        apply Z.eqb_eq in Eci. split; [right; left; exact Eci|].
        rewrite E2. exact P2. }
      destruct (k mod checkpoint_interval cfg =? 0); [|discriminate].
      intros H. pose proof (checkpoint_effect k f2) as C.
      rewrite H in C. cbn [leaves] in C. destruct C as (_ & _ & C).
      congruence.
    + intros H. injection H as H1 H2. subst e' h'.
      destruct E as (_ & E2 & _). split; [|rewrite E2; exact P2].
      destruct environ_WORLD_SIZE as [ws|] eqn:Hws.
      * destruct (rank =? 0) eqn:Er; [|discriminate].
        destruct (zero_divisor k ws (prologue b h)) eqn:Ez; [|discriminate].
        cbn [andb] in O. injection O as O. subst e.
        apply Z.eqb_eq in Er.
        destruct (zero_divisor_cause k ws _ Eri Hk Ez) as [Z0|Z0].
        -- right; right. subst ws. auto.
        -- right; right. cbn [prologue ticks loop_start] in Z0. auto.
      * injection O as O. subst e. cbn [step_failure]. auto.
  - apply Z.eqb_neq in Ek.
    destruct (checkpoint_interval cfg =? 0) eqn:Eci.
    { intros H. injection H as H1 H2. subst e h'.
      apply Z.eqb_eq in Eci. split; [right; left; exact Eci|exact P2]. }
    apply Z.eqb_neq in Eci.
    destruct (k mod checkpoint_interval cfg =? 0) eqn:Ec; [|discriminate].
    apply Z.eqb_eq in Ec.
    intros H. pose proof (checkpoint_effect k (prologue b h)) as C.
    rewrite H in C. cbn [leaves] in C. destruct C as (C1 & C2 & C3).
    subst e h'. cbn [prologue new_tokens_seen] in C3.
    split; [cbn [step_failure]; repeat split; auto|exact P2].
Qed.

Lemma step_failure_explained (l : list batch) (k : Z) (h : frame) (e : exn) :
  start_step < k <= num_steps cfg ->
  well_under_way k h -> step_failure k h e -> train_failure l e.
Proof.
  intros Hk (_ & Hls & Ht & Hseen).
  destruct e as [|key|name| |what]; cbn [step_failure train_failure];
    try contradiction.
  - tauto.
  - intros (Hn & Hri & Hci & Hc & Hr & Hnone). left.
    split; [exact Hn|]. split; [exact Hri|]. split; [exact Hci|].
    exists k. split; [lia|]. split; [exact Hc|].
    intros j Hj Hjm. destruct (Z.eq_dec j k) as [E|E]; [congruence|].
    destruct Hseen as [Hs _]; [exists j; split; [lia|exact Hjm]|].
    contradiction.
  - intros [H|[H|(Hr & _ & [H|H])]]; auto.
    right; right. split; [exact Hr|]. right.
    exists (ticks h). split; [exact Ht|]. rewrite <- Hls. exact H.
Qed.


Lemma train_loop_with_zero_interval (l : list batch) (f : frame) :
  report_interval cfg = 0 \/ checkpoint_interval cfg = 0 ->
  (train_loop l (start_step + 1) f = (Ok tt, f) /\
   (l = [] \/ num_steps cfg <= start_step)) \/
  (exists e h', train_loop l (start_step + 1) f = (Raise e, h') /\
                saved (trace h') = saved (trace f) /\
                (report_interval cfg = 0 ->
                 e = ZeroDivisionError /\
                 contributions (trace h') = contributions (trace f))).
Proof.
  intros Hz. destruct l as [|b rest]; cbn [train_loop]; [left; auto|].
  destruct (start_step + 1 >? num_steps cfg) eqn:Hgt;
    [left; split; [reflexivity|right; lia]|].
  right. unfold bind.
  destruct (train_step (start_step + 1) b f) as [[[]|e] h'] eqn:Es.
  - destruct (train_step_frame _ _ _ _ Es) as (Hri & Hci & _). tauto.
  - exists e, h'. split; [reflexivity|].
    destruct (train_step_failure (start_step + 1) b f h' e ltac:(lia) Es)
      as [_ Hs].
    split; [exact Hs|]. intros Hri.
    rewrite train_step_unfold in Es. apply Z.eqb_eq in Hri. rewrite Hri in Es.
    injection Es as E1 E2. subst e h'.
    destruct (prologue_events b f) as (P1 & _). auto.
Qed.

(** X10. An interval of zero does not switch reporting or checkpointing
    off: with report_interval or checkpoint_interval equal to 0 [train]
    never returns a value and never saves. With report_interval 0 and
    an iteration to make, the first iteration raises ZeroDivisionError
    at line 83, before any collective. *)
Theorem zero_interval_is_fatal (l : list batch) :
  report_interval cfg = 0 \/ checkpoint_interval cfg = 0 ->
  (exists e, fst (train l) = Raise e) /\
  saved (trace (snd (train l))) = [] /\
  (report_interval cfg = 0 ->
   use_wandb cfg = false \/ wandb_installed = true ->
   l <> [] -> start_step < num_steps cfg ->
   fst (train l) = Raise ZeroDivisionError /\
   reduced (trace (snd (train l))) = []).
Proof.
  intros Hz. rewrite train_frame. unfold train, train_body, bind, reduced.
  rewrite run_loop_unfold.
  destruct startup_events_projections as (S1 & S2 & _).
  destruct (use_wandb cfg && negb wandb_installed) eqn:Ew.
  - cbn [fst snd]. split; [eauto|]. split; [reflexivity|].
    intros _ [Hw|Hw]; rewrite Hw in Ew;
      [discriminate|rewrite andb_false_r in Ew; discriminate].
  - destruct (train_loop_with_zero_interval l loop_entry Hz)
      as [[H Hnone]|(e & h' & H & Hs & Hr)]; rewrite H; cbn [fst snd].
    + unfold load, loop_entry. cbn [train_loss trace fst].
      split; [eauto|]. split; [exact S2|].
      intros _ _ Hl Hn. destruct Hnone; [contradiction|lia].
    + split; [eauto|]. split; [rewrite Hs; exact S2|].
      intros Hri _ _ _. destruct (Hr Hri) as [He Hc].
      rewrite He, Hc. unfold loop_entry. cbn [trace]. rewrite S1.
      split; reflexivity.
Qed.

(** ** The token count of a save, in closed form *)

Lemma train_step_counts_to_last_boundary (ws k : Z) (b : batch) (h h' : frame) :
  0 < report_interval cfg ->
  environ_WORLD_SIZE = Some ws ->
  counts_to_last_boundary ws k h ->
  train_step k b h = (Ok tt, h') ->
  counts_to_last_boundary ws (k + 1) h'.
Proof.
  unfold counts_to_last_boundary. intros Hr Hws (Hs & Hn) Hstep.
  destruct (train_step_frame k b h h' Hstep) as (_ & _ & _ & _ & F & Hsv & Hc).
  unfold is_report_step, last_boundary in *.
  replace (k + 1 - 1) with k by lia.
  assert (Hn' : new_tokens_seen h' = None \/
                new_tokens_seen h' =
                Some (tokens_delta (k - k mod report_interval cfg) ws)).
  { destruct (k mod report_interval cfg =? 0) eqn:Ek.
    - apply Z.eqb_eq in Ek. destruct F as (_ & _ & ws' & Hws' & F).
      right. rewrite F, Ek. rewrite Hws in Hws'. injection Hws' as E.
      subst ws'. f_equal. f_equal. lia.
    - apply Z.eqb_neq in Ek. destruct F as (_ & _ & F). rewrite F.
      destruct Hn as [Hn|Hn]; [left; exact Hn|right].
      rewrite Hn, (mod_pred_of_other k _ Hr Ek). f_equal. f_equal. lia. }
  split; [|exact Hn'].
  rewrite Hsv. apply Forall_app. split; [exact Hs|].
  destruct (is_checkpoint_step k) eqn:Ec; [|constructor].
  destruct Hn' as [Hn'|Hn']; [destruct (Hc eq_refl Hn')|].
  rewrite Hn'. constructor; [reflexivity|constructor].
Qed.

Lemma run_loop_counts_to_last_boundary (l : list batch) (ws : Z) (g : frame) :
  0 < report_interval cfg ->
  environ_WORLD_SIZE = Some ws ->
  run_loop l entry = (Ok tt, g) ->
  Forall (fun p => snd p = tokens_seen + tokens_delta (last_boundary (fst p)) ws)
         (saved (trace g)).
Proof.
  intros Hr Hws H. apply run_loop_ok in H. destruct H as [_ H].
  apply (train_loop_partial (counts_to_last_boundary ws) l
           (start_step + 1) loop_entry g); [| |exact H].
  - intros j b h h' _. apply train_step_counts_to_last_boundary; assumption.
  - unfold counts_to_last_boundary, loop_entry. cbn [trace new_tokens_seen].
    destruct startup_events_projections as (_ & S2 & _). rewrite S2.
    split; [constructor|left; reflexivity].
Qed.

(** X11. With a positive report_interval, the token count handed to the
    save of step [i] counts the steps up to the last multiple of
    report_interval at or before [i], not up to [i]: it is
    tokens_seen + (i - i mod report_interval - start_step) * world_size
    * batch_size * seq_length, short of the tokens of step [i] by those
    of i mod report_interval steps. *)
Theorem saved_token_count_lags_to_last_report (l : list batch) (ws : Z)
  (g : frame) :
  0 < report_interval cfg ->
  environ_WORLD_SIZE = Some ws ->
  run_loop l entry = (Ok tt, g) ->
  Forall (fun p =>
            snd p =
            tokens_seen +
            (fst p - fst p mod report_interval cfg - start_step) * ws *
            batch_size cfg * seq_length cfg /\
            snd p =
            tokens_seen + tokens_delta (fst p) ws -
            (fst p mod report_interval cfg) * ws * batch_size cfg *
            seq_length cfg)
         (saved (trace g)).
Proof.
  intros Hr Hws H.
  pose proof (run_loop_counts_to_last_boundary l ws g Hr Hws H) as K.
  eapply Forall_impl; [|exact K].
  intros [i t]. unfold tokens_delta, last_boundary. cbn [fst snd].
  intros E. split; [exact E|]. rewrite E. ring.
Qed.

(** ** What wandb is told *)

Lemma report_logs_what_it_prints (i ws : Z) (f : frame) :
  rank = 0 -> use_wandb cfg = true -> environ_WORLD_SIZE = Some ws ->
  leaves
    (fun g =>
       exists m,
         logged (trace g) = logged (trace f) ++ [(m, i)] /\
         printed "LR:" (trace g) =
         printed "LR:" (trace f) ++ [VFloat (w_learning_rate m)] /\
         printed "loss:" (trace g) =
         printed "loss:" (trace f) ++ [VFloat (w_loss m)] /\
         printed "gradient norm:" (trace g) =
         printed "gradient norm:" (trace f) ++ [VFloat (w_gradient_norm m)] /\
         printed "tokens seen:" (trace g) =
         printed "tokens seen:" (trace f) ++ [VInt (w_token_seen m)] /\
         printed "overall token per gpu per sec:" (trace g) =
         printed "overall token per gpu per sec:" (trace f) ++
         [VInt (w_throughput m)] /\
         printed "reserved memory:" (trace g) =
         printed "reserved memory:" (trace f) ++
         [VInt (w_gpu_reserved_memory m)] /\
         printed "allocated memory:" (trace g) =
         printed "allocated memory:" (trace f) ++
         [VInt (w_gpu_allocated_memory m)] /\
         w_token_seen m = tokens_seen + tokens_delta i ws /\
         w_loss m = average_loss i (ddp_stats f))
    (fun _ _ => True)
    (report i f).
Proof.
  intros Hrank Hw Hws. apply Z.eqb_eq in Hrank.
  unfold average_loss, tokens_delta.
  destruct f. unfold_m. rewrite Hws, Hrank, Hw. unfold_m.
  repeat (break_if; unfold_m); cbn [leaves]; auto.
  eexists.
  rewrite !logged_snoc, !printed_snoc. compare_labels.
  cbn [app]. rewrite ?app_nil_r.
  split; [reflexivity|].
  cbn [w_learning_rate w_loss w_gradient_norm w_token_seen w_throughput
       w_gpu_reserved_memory w_gpu_allocated_memory].
  repeat split; reflexivity.
Qed.

(** X13. On rank 0 with wandb in use, a report that goes through hands
    wandb one record, under the step index, whose learning rate, loss,
    gradient norm, token count, throughput and memory figures are the
    values the same report prints; the token count is
    tokens_seen + (i - start_step) * world_size * batch_size *
    seq_length and the loss is the average of line 85. *)
Theorem wandb_record_matches_printed (i ws : Z) (f g : frame) :
  rank = 0 -> use_wandb cfg = true -> environ_WORLD_SIZE = Some ws ->
  report i f = (Ok tt, g) ->
  exists m,
    logged (trace g) = logged (trace f) ++ [(m, i)] /\
    printed "LR:" (trace g) =
    printed "LR:" (trace f) ++ [VFloat (w_learning_rate m)] /\
    printed "loss:" (trace g) =
    printed "loss:" (trace f) ++ [VFloat (w_loss m)] /\
    printed "gradient norm:" (trace g) =
    printed "gradient norm:" (trace f) ++ [VFloat (w_gradient_norm m)] /\
    printed "tokens seen:" (trace g) =
    printed "tokens seen:" (trace f) ++ [VInt (w_token_seen m)] /\
    printed "overall token per gpu per sec:" (trace g) =
    printed "overall token per gpu per sec:" (trace f) ++
    [VInt (w_throughput m)] /\
    printed "reserved memory:" (trace g) =
    printed "reserved memory:" (trace f) ++
    [VInt (w_gpu_reserved_memory m)] /\
    printed "allocated memory:" (trace g) =
    printed "allocated memory:" (trace f) ++
    [VInt (w_gpu_allocated_memory m)] /\
    w_token_seen m =
    tokens_seen +
    (i - start_step) * ws * batch_size cfg * seq_length cfg /\
    w_loss m = average_loss i (ddp_stats f).
Proof.
  intros Hrank Hw Hws H.
  pose proof (report_logs_what_it_prints i ws f Hrank Hw Hws) as K.
  rewrite H in K. exact K.
Qed.

(** ** A world size of zero *)

(** X14. With WORLD_SIZE set to 0 the ranks part ways at the first report:
    rank 0 raises ZeroDivisionError at line 97, after it has taken part
    in the collective and before it has printed anything, while every
    other rank goes through the report, with a token count of 0, and
    on to the next steps. *)
Theorem zero_world_size_splits_the_ranks (i : Z) (f : frame) :
  environ_WORLD_SIZE = Some 0 ->
  (rank = 0 ->
   fst (report i f) = Raise ZeroDivisionError /\
   trace (snd (report i f)) = trace f ++ [EvAllReduce i (ddp_stats f)]) /\
  (rank <> 0 ->
   fst (report i f) = Ok tt /\
   trace (snd (report i f)) = trace f ++ [EvAllReduce i (ddp_stats f)] /\
   new_tokens_seen (snd (report i f)) = Some 0 /\
   ddp_stats (snd (report i f)) = zeros).
Proof.
  intros Hws. split; intros Hrank.
  - apply Z.eqb_eq in Hrank.
    destruct f. unfold_m. rewrite Hws, Hrank. unfold_m.
    split; reflexivity.
  - apply Z.eqb_neq in Hrank.
    destruct f. unfold_m. rewrite Hws, Hrank. unfold_m.
    repeat split; try reflexivity. cbn [fst snd new_tokens_seen].
    f_equal. lia.
Qed.
End Train.

Arguments EvPrint {Model Optimizer Loader} label v.
Arguments EvPrintMsg {Model Optimizer Loader} msg.
Arguments EvWandbInit {Model Optimizer Loader} project dir id.
Arguments EvWandbLog {Model Optimizer Loader} m step.
Arguments EvProfilerStep {Model Optimizer Loader}.
Arguments EvAllReduce {Model Optimizer Loader} batch_idx contribution.
Arguments EvSave {Model Optimizer Loader} batch_idx m o l tokens_seen.
Arguments mk_frame {Model Optimizer Loader}.
Arguments ddp_stats {Model Optimizer Loader} f.
Arguments start {Model Optimizer Loader} f.
Arguments loop_start {Model Optimizer Loader} f.
Arguments train_loss {Model Optimizer Loader} f.
Arguments g_norm {Model Optimizer Loader} f.
Arguments new_tokens_seen {Model Optimizer Loader} f.
Arguments ticks {Model Optimizer Loader} f.
Arguments trace {Model Optimizer Loader} f.
Arguments printed {Model Optimizer Loader} label tr.
Arguments saved {Model Optimizer Loader} tr.
Arguments silent {Model Optimizer Loader} tr.
Arguments last_reduce {Model Optimizer Loader} tr.
Arguments is_all_reduce {Model Optimizer Loader} e.

Arguments contributions {Model Optimizer Loader} tr.
Arguments reduced {Model Optimizer Loader} tr.
Arguments profiler_steps {Model Optimizer Loader} tr.
Arguments logged {Model Optimizer Loader} tr.
Arguments mute {Model Optimizer Loader} tr.
Arguments last_contribution {Model Optimizer Loader} tr.

(** ** Resuming from a checkpoint *)

Section Resume.

Variables Model Optimizer Loader : Type.

(** Two worlds, one for the run that writes the checkpoint and one for
    the run that resumes from it, with the same configuration and the
    same world size. *)
Variables clock clock' : nat -> Q.
Variable ws : Z.
Variables wandb_installed wandb_installed' : bool.
Variables peers peers' : Z -> list stats.
Variable get_last_lr : Z -> Q.
Variables max_memory_reserved max_memory_allocated : Z -> Z.
Variable cfg : train_config.
Variable model : Model.
Variable rank : Z.
Variable train_loader_handle : Loader.
Variable optimizer : Optimizer.
Variable profiler : bool.

(** The body of [train] called with [start_step] and [tokens_seen]. *)
Definition first_run (start_step tokens_seen : Z) (l : list batch)
  : result unit * frame Model Optimizer Loader :=
  run_loop Model Optimizer Loader clock (Some ws) wandb_installed peers
           get_last_lr max_memory_reserved max_memory_allocated cfg model rank
           train_loader_handle optimizer profiler start_step tokens_seen l
           (entry Model Optimizer Loader).

(** The same in the world of the resumed run. *)
Definition resumed_run (start_step tokens_seen : Z) (l : list batch)
  : result unit * frame Model Optimizer Loader :=
  run_loop Model Optimizer Loader clock' (Some ws) wandb_installed' peers'
           get_last_lr max_memory_reserved max_memory_allocated cfg model rank
           train_loader_handle optimizer profiler start_step tokens_seen l
           (entry Model Optimizer Loader).

(** X12. Save and resume, with a positive report_interval. A run from
    [s] with [t] tokens saves [(i, T)]; a second run is started from
    that checkpoint, with start_step [i] and tokens_seen [T], and saves
    [(j, T')]. Next to what a run from [s] that was not interrupted
    hands over at step [j], the resumed count is short by the tokens
    of i mod report_interval steps: the two agree exactly when the
    checkpoint was taken at a multiple of report_interval. *)
Theorem resumed_token_count (s t i T j T' T'' : Z)
  (lA lB lC : list batch) (gA gB gC : frame Model Optimizer Loader) :
  0 < report_interval cfg ->
  first_run s t lA = (Ok tt, gA) -> In (i, T) (saved (trace gA)) ->
  resumed_run i T lB = (Ok tt, gB) -> In (j, T') (saved (trace gB)) ->
  first_run s t lC = (Ok tt, gC) -> In (j, T'') (saved (trace gC)) ->
  T' = T'' - (i mod report_interval cfg) * ws * batch_size cfg * seq_length cfg /\
  (i mod report_interval cfg = 0 -> T' = T'').
Proof.
  intros Hr HA HiT HB HjT HC HjT''.
  pose proof (run_loop_counts_to_last_boundary _ _ _ _ _ _ _ _ _ _ _ _ _ _ _
                _ _ _ lA ws gA Hr eq_refl HA) as KA.
  pose proof (run_loop_counts_to_last_boundary _ _ _ _ _ _ _ _ _ _ _ _ _ _ _
                _ _ _ lB ws gB Hr eq_refl HB) as KB.
  pose proof (run_loop_counts_to_last_boundary _ _ _ _ _ _ _ _ _ _ _ _ _ _ _
                _ _ _ lC ws gC Hr eq_refl HC) as KC.
  rewrite Forall_forall in KA, KB, KC.
  specialize (KA _ HiT). specialize (KB _ HjT). specialize (KC _ HjT'').
  unfold tokens_delta, last_boundary in *. cbn [fst snd] in *.
  assert (E : T' = T'' - i mod report_interval cfg * ws * batch_size cfg *
                         seq_length cfg).
  { rewrite KB, KC, KA. ring. }
  split; [exact E|]. intros Hi. rewrite E, Hi. ring.
Qed.

End Resume.

(** ** Concrete inputs *)

(** A clock that advances by one second at every reading. *)
Definition ticking_clock (n : nat) : Q := inject_Z (Z.of_nat n).

(** The world of a single worker, as [train_alone] sets it up. *)
Definition nobody (_ : Z) : list stats := [].
Definition flat_lr (_ : Z) : Q := learning_rate default_train_config.
Definition no_memory (_ : Z) : Z := 0.

(** [train] on a single worker: rank 0, nobody else in the collective,
    no profiler, handles that carry nothing, a constant learning rate
    and no memory readings. *)
Definition train_alone (clock : nat -> Q) (environ_WORLD_SIZE : option Z)
  (cfg : train_config) (start_step tokens_seen : Z)
  (train_loader : list batch) : result Q * frame unit unit unit :=
  train unit unit unit clock environ_WORLD_SIZE true nobody
        (fun _ => learning_rate cfg) no_memory no_memory
        cfg tt 0 tt tt false start_step tokens_seen train_loader.

(** One iteration and one report of a single worker. *)
Definition step_alone (cfg : train_config) (i : Z) (b : batch)
  (f : frame unit unit unit) : result unit * frame unit unit unit :=
  train_step unit unit unit ticking_clock (Some 1) nobody flat_lr no_memory
             no_memory cfg tt 0 tt tt false 0 0 i b f.

Definition report_alone (cfg : train_config) (i : Z)
  (f : frame unit unit unit) : result unit * frame unit unit unit :=
  report unit unit unit ticking_clock (Some 1) nobody flat_lr no_memory
         no_memory cfg 0 0 0 i f.

(** The default configuration with another step budget and other
    intervals. *)
Definition with_schedule (steps report checkpoint : Z) : train_config :=
  mk_train_config
    (seq_length default_train_config) (mixed_precision default_train_config)
    (sharding_strategy default_train_config) (batch_size default_train_config)
    steps (learning_rate default_train_config)
    (use_wandb default_train_config) (wandb_dir default_train_config)
    (wandb_project_name default_train_config)
    (wandb_run_id default_train_config) report checkpoint.

Definition with_sharding (s : string) : train_config :=
  mk_train_config
    (seq_length default_train_config) (mixed_precision default_train_config)
    s (batch_size default_train_config) (num_steps default_train_config)
    (learning_rate default_train_config) (use_wandb default_train_config)
    (wandb_dir default_train_config) (wandb_project_name default_train_config)
    (wandb_run_id default_train_config)
    (report_interval default_train_config)
    (checkpoint_interval default_train_config).

(** The end-to-end scenario of the specification: three steps, a report
    and a checkpoint every two, losses 1.0, 2.0, 3.0 and gradient norms
    0.1, 0.2, 0.3. *)
Definition scenario_loader : list batch :=
  [mk_batch 1 (1 # 10); mk_batch 2 (2 # 10); mk_batch 3 (3 # 10)].

Definition scenario_run : result Q * frame unit unit unit :=
  train_alone ticking_clock (Some 1) (with_schedule 3 2 2) 0 0 scenario_loader.

(** A frame in the middle of a run: after the report of step 2 of the
    scenario. *)
Definition after_step_2 : frame unit unit unit :=
  mk_frame zeros 4 1 (Some (3 # 2)) (Some (30 # 200)) (Some 16384) 5%nat [].

(** A frame at the start of the loop. *)
Definition at_loop_start : frame unit unit unit :=
  mk_frame zeros 0 1 None None None 2%nat [].

(** Rank 0 of two: the other rank brings the batches [peer_batches] to
    the collective of step 2, this one has [mk_batch 1 (1 # 10)] behind
    it and [mk_batch 2 (2 # 10)] in hand. *)
Definition peer_batches : list (list batch) :=
  [[mk_batch 3 (3 # 10); mk_batch 5 (5 # 10)]].

Definition one_peer (_ : Z) : list stats := map local_stats peer_batches.

Definition with_one_batch : frame unit unit unit :=
  mk_frame (local_stats [mk_batch 1 (1 # 10)]) 0 1 None None None 2%nat [].

Definition boundary_with_peer : result unit * frame unit unit unit :=
  train_step unit unit unit ticking_clock (Some 2) one_peer flat_lr no_memory
             no_memory (with_schedule 3 2 2) tt 0 tt tt false 0 0
             2 (mk_batch 2 (2 # 10)) with_one_batch.

(** Modelled on the words of the specification (section 4.2), for
    comparison with what [report] prints: the tokens processed in the
    interval, per worker, over the wall time since the last report. *)
Definition spec_throughput (tokens_this_interval worker_count : Z)
  (elapsed_since_last_report : Q) : Q :=
  (inject_Z tokens_this_interval / inject_Z worker_count /
   elapsed_since_last_report)%Q.

(** A clock for a run of two steps with a report at each: the first
    step ends one second after the loop began, the second ten seconds
    later. *)
Definition slow_second_step (n : nat) : Q :=
  match n with
  | 0%nat | 1%nat => 0
  | 2%nat | 3%nat | 4%nat => 1
  | _ => 11
  end.

(** A run with a report at every step, and the frame it is in when the
    second step begins. *)
Definition two_reports_cfg : train_config := with_schedule 2 1 1000.

Definition two_reports_run : result Q * frame unit unit unit :=
  train_alone slow_second_step (Some 1) two_reports_cfg 0 0
              (firstn 2 scenario_loader).

Definition after_first_report : frame unit unit unit :=
  snd (train_alone slow_second_step (Some 1) two_reports_cfg 0 0
                   (firstn 1 scenario_loader)).

(** The wall time between the first report ([start], line 132) and the
    clock reading of the second. *)
Definition since_last_report : Q :=
  (slow_second_step (ticks after_first_report) - start after_first_report)%Q.

(** Hardware on which every probe answers yes. *)
Definition bf16_hardware : hardware :=
  mk_hardware (Some "12.1") (Ok true) (Ok [12; 1]) (Ok true) (Ok [2; 18; 3]).

(** Hardware whose bf16 probe raises. *)
Definition failing_bf16_probe : hardware :=
  mk_hardware (Some "12.1") (Raise (ProbeError "torch.cuda.is_bf16_supported"))
              (Ok [12; 1]) (Ok true) (Ok [2; 18; 3]).

(** The body of [train] and [train] itself on one worker of a world
    in which the others bring nothing to the collectives, with the rank,
    the profiler and the environment left open. *)
Definition run_with (rank : Z) (profiler : bool) (environ_WORLD_SIZE : option Z)
  (cfg : train_config) (start_step tokens_seen : Z) (l : list batch)
  : result unit * frame unit unit unit :=
  run_loop unit unit unit ticking_clock environ_WORLD_SIZE true nobody flat_lr
           no_memory no_memory cfg tt rank tt tt profiler start_step
           tokens_seen l (entry unit unit unit).

Definition train_with (rank : Z) (profiler : bool) (environ_WORLD_SIZE : option Z)
  (cfg : train_config) (start_step tokens_seen : Z) (l : list batch)
  : result Q * frame unit unit unit :=
  train unit unit unit ticking_clock environ_WORLD_SIZE true nobody flat_lr
        no_memory no_memory cfg tt rank tt tt profiler start_step tokens_seen l.

Definition report_with (rank : Z) (environ_WORLD_SIZE : option Z)
  (cfg : train_config) (i : Z) (f : frame unit unit unit)
  : result unit * frame unit unit unit :=
  report unit unit unit ticking_clock environ_WORLD_SIZE nobody flat_lr
         no_memory no_memory cfg rank 0 0 i f.

(** Six batches, with losses 1.0 to 6.0. *)
Definition six_batches : list batch :=
  scenario_loader ++
  [mk_batch 4 (4 # 10); mk_batch 5 (5 # 10); mk_batch 6 (6 # 10)].

(** The configuration of the scenario with wandb in use. *)
Definition with_wandb : train_config :=
  mk_train_config
    (seq_length default_train_config) (mixed_precision default_train_config)
    (sharding_strategy default_train_config) (batch_size default_train_config)
    3 (learning_rate default_train_config) true
    (wandb_dir default_train_config) (wandb_project_name default_train_config)
    (wandb_run_id default_train_config) 2 2.

(** ** The end-to-end scenario *)

(** C1, as stated, fails: the value [train] returns in the scenario is
    not 3.0. *)
Lemma scenario_does_not_return_3 :
  exists v, fst scenario_run = Ok v /\ ~ (v == 3)%Q.
Proof.
  eexists. split; [vm_compute; reflexivity|].
  intros H. vm_compute in H. discriminate.
Qed.

(** C1, as the code has it. In the scenario the report at step 2 prints
    the averages 1.5 and 0.15 and the checkpoint at step 2 is handed
    2 * batch_size * seq_length tokens; step 3 executes, leaving its
    loss and gradient norm in the accumulator with a count of one;
    nothing is reported at step 3 and [train] returns the average of the
    report at step 2, which is 1.5. *)
Theorem scenario_returns_last_reported_average :
  (exists v, fst scenario_run = Ok v /\ (v == 3 # 2)%Q) /\
  printed "step:" (trace (snd scenario_run)) = [VInt 2] /\
  (exists l g,
     printed "loss:" (trace (snd scenario_run)) = [VFloat l] /\
     printed "gradient norm:" (trace (snd scenario_run)) = [VFloat g] /\
     (l == 3 # 2)%Q /\ (g == 15 # 100)%Q) /\
  saved (trace (snd scenario_run)) =
  [(2, 2 * batch_size (with_schedule 3 2 2) * seq_length (with_schedule 3 2 2))] /\
  stats_eq (ddp_stats (snd scenario_run)) (mk_stats 3 (3 # 10) 1).
Proof.
  split; [|split; [|split; [|split]]].
  - eexists. split; vm_compute; reflexivity.
  - vm_compute; reflexivity.
  - do 2 eexists.
    split; [vm_compute; reflexivity|].
    split; [vm_compute; reflexivity|].
    split; vm_compute; reflexivity.
  - vm_compute; reflexivity.
  - unfold stats_eq.
    split; [vm_compute; reflexivity|].
    split; vm_compute; reflexivity.
Qed.

(** ** Checkpoints off the report cadence *)

(** C3, where the code falls short of it. With a checkpoint at every
    step and a report every two, step 1 is a multiple of
    checkpoint_interval, yet [train] raises at step 1 while evaluating
    the arguments of the save, and nothing is saved. With a report every
    two steps and a checkpoint every three, the save of step 3 is
    handed the token count of the first two steps. *)
Theorem checkpoint_off_the_report_cadence :
  1 mod checkpoint_interval (with_schedule 3 2 1) = 0 /\
  fst (train_alone ticking_clock (Some 1) (with_schedule 3 2 1) 0 0
         scenario_loader) =
  Raise (UnboundLocalError "new_tokens_seen") /\
  saved (trace (snd (train_alone ticking_clock (Some 1) (with_schedule 3 2 1)
                       0 0 scenario_loader))) = [] /\
  saved (trace (snd (train_alone ticking_clock (Some 1) (with_schedule 3 2 3)
                       0 0 scenario_loader))) =
  [(3, 2 * batch_size (with_schedule 3 2 3) * seq_length (with_schedule 3 2 3))].
Proof.
  split; [vm_compute; reflexivity|].
  split; [vm_compute; reflexivity|].
  split; vm_compute; reflexivity.
Qed.

(** ** The throughput of the second report *)


(** ** The general facts at concrete inputs *)







(** ** Facts about get_policies *)

(** C5. The sharding strategy is read off the configuration string:
    "fsdp" gives full shard, "hsdp" hybrid shard, "ddp" no shard and any
    other string full shard. The string never makes [get_policies]
    raise: whether it raises does not depend on the configuration, and
    when the capability probes go through the result carries the
    strategy of the string. *)
Theorem sharding_strategy_of_string :
  select_sharding_strategy "fsdp" = FULL_SHARD /\
  select_sharding_strategy "hsdp" = HYBRID_SHARD /\
  select_sharding_strategy "ddp" = NO_SHARD /\
  (forall s, s <> "fsdp" -> s <> "hsdp" -> s <> "ddp" ->
             select_sharding_strategy s = FULL_SHARD) /\
  (forall (W : Type) (w : W) hw cfg cfg' rank,
     is_ok (get_policies W w hw cfg rank) =
     is_ok (get_policies W w hw cfg' rank)) /\
  (forall (W : Type) (w : W) hw cfg rank b,
     verify_bfloat_support hw = Ok b ->
     exists p, get_policies W w hw cfg rank = Ok p /\
               sharding p = select_sharding_strategy (sharding_strategy cfg)).
Proof.
  split; [reflexivity|]. split; [reflexivity|]. split; [reflexivity|].
  split; [|split].
  - intros s H1 H2 H3. unfold select_sharding_strategy.
    apply String.eqb_neq in H1, H2, H3. rewrite H1, H2, H3. reflexivity.
  - intros W w hw cfg cfg' rank. unfold get_policies.
    destruct (verify_bfloat_support hw) as [b|e]; [|reflexivity].
    destruct (mixed_precision cfg), (mixed_precision cfg'), b; reflexivity.
  - intros W w hw cfg rank b H. unfold get_policies. rewrite H.
    destruct (mixed_precision cfg), b; eexists; split; reflexivity.
Qed.

Lemma unknown_sharding_string_witness :
  exists p, get_policies unit tt bf16_hardware (with_sharding "xyz") 0 = Ok p /\
            sharding p = FULL_SHARD.
Proof.
  destruct sharding_strategy_of_string as (_ & _ & _ & Hother & _ & Hget).
  destruct (Hget unit tt bf16_hardware (with_sharding "xyz") 0 true eq_refl)
    as (p & Hp & Hs).
  exists p. split; [exact Hp|].
  rewrite Hs. apply Hother; discriminate.
Defined.




(** X15. What [get_policies] returns does not depend on the rank: the rank
    only decides who prints. A rank other than 0 prints nothing; rank 0
    prints the line of the precision policy chosen, if mixed precision
    is asked for, and then the sharding line, which shows the
    configuration string as given, also when the string is not one of
    the three known ones and full shard is used. The wrapping policy is
    always the llama wrapper. *)
Theorem rank_only_decides_who_prints :
  forall (W : Type) (w : W) hw cfg rank,
    map_result returned (get_policies W w hw cfg rank) =
    map_result returned (get_policies W w hw cfg 0) /\
    (forall p, get_policies W w hw cfg rank = Ok p ->
       wrapping_policy p = w /\
       printed_lines p =
       if rank =? 0
       then match mixed_precision_policy p with
            | Some bfSixteen =>
                ["bFloat16 enabled for mixed precision - using bfSixteen policy"]
            | Some fpSixteen => ["FP16 enabled"]
            | None => []
            end ++ [("Sharding strategy = " ++ sharding_strategy cfg)%string]
       else []).
Proof.
  intros W w hw cfg rank. unfold get_policies.
  destruct (verify_bfloat_support hw) as [b|e]; [|split; [reflexivity|discriminate]].
  split.
  - destruct (mixed_precision cfg), b; reflexivity.
  - intros p.
    destruct (mixed_precision cfg), b, (rank =? 0); intros H;
      injection H as H; subst p; split; reflexivity.
Qed.

(** Python's [>=] against a pair: a tuple passes when its first
    component is greater, or equal with a second component that is at
    least the other's; a tuple of one component equal to the first does
    not pass. *)
Lemma tuple_ge_pair (r : list Z) (a b : Z) :
  tuple_ge r [a; b] = true <->
  match r with
  | [] => False
  | [x] => a < x
  | x :: y :: _ => a < x \/ (x = a /\ b <= y)
  end.
Proof.
  destruct r as [|x [|y r]]; cbn [tuple_ge].
  - split; [discriminate|contradiction].
  - destruct (x >? a) eqn:E1; [split; [lia|reflexivity]|].
    destruct (x <? a) eqn:E2; split; try discriminate; lia.
  - destruct (x >? a) eqn:E1; [split; [lia|reflexivity]|].
    destruct (x <? a) eqn:E2; [split; [discriminate|lia]|].
    destruct (y >? b) eqn:E3; [split; [lia|reflexivity]|].
    destruct (y <? b) eqn:E4; [split; [discriminate|lia]|].
    destruct r; split; try reflexivity; lia.
Qed.

(** X16. bf16 is found ready exactly when every probe of lines 160-166
    answers and is truthy: a CUDA version string that is not empty,
    bf16 supported, a CUDA release of at least 11.0, NCCL available and
    an NCCL version of at least 2.10. A release or version tuple with a
    single component passes only if that component is greater than 11,
    respectively 2. *)
Theorem bf16_needs_every_capability (hw : hardware) :
  verify_bfloat_support hw = Ok true <->
  (exists s, torch_version_cuda hw = Some s /\ s <> "") /\
  is_bf16_supported hw = Ok true /\
  (exists r, cuda_release hw = Ok r /\
             match r with
             | [] => False
             | [x] => 11 < x
             | x :: y :: _ => 11 < x \/ (x = 11 /\ 0 <= y)
             end) /\
  is_nccl_available hw = Ok true /\
  (exists v, nccl_version hw = Ok v /\
             match v with
             | [] => False
             | [x] => 2 < x
             | x :: y :: _ => 2 < x \/ (x = 2 /\ 10 <= y)
             end).
Proof.
  unfold verify_bfloat_support, and_then, map_result, truthy_str. split.
  - destruct (torch_version_cuda hw) as [s|]; [|discriminate].
    destruct (String.eqb s "") eqn:Es; [discriminate|]. cbn [negb].
    destruct (is_bf16_supported hw) as [[|]|]; try discriminate.
    destruct (cuda_release hw) as [r|]; [|discriminate].
    destruct (tuple_ge r [11; 0]) eqn:Er; [|discriminate].
    destruct (is_nccl_available hw) as [[|]|]; try discriminate.
    destruct (nccl_version hw) as [v|]; [|discriminate].
    intros H. injection H as H.
    apply tuple_ge_pair in Er, H. apply String.eqb_neq in Es.
    repeat split; eauto.
  - intros ((s & Hs & Hne) & Hb & (r & Hr & Hr') & Hn & (v & Hv & Hv')).
    apply String.eqb_neq in Hne. apply tuple_ge_pair in Hr', Hv'.
    rewrite Hs, Hne, Hb, Hr, Hr', Hn, Hv, Hv'. reflexivity.
Qed.

(** X18. Setting the two flags: both read ["1"] afterwards, every other
    variable reads as before, in particular WORLD_SIZE, which [train]
    looks up, and a second call changes nothing. *)
Theorem setup_environ_flags_sets_two_flags (env : environ) :
  setup_environ_flags env "TORCH_SHOW_CPP_STACKTRACES" = Some "1" /\
  setup_environ_flags env "NCCL_ASYNC_ERROR_HANDLING" = Some "1" /\
  (forall k, k <> "TORCH_SHOW_CPP_STACKTRACES" ->
             k <> "NCCL_ASYNC_ERROR_HANDLING" ->
             setup_environ_flags env k = env k) /\
  setup_environ_flags env "WORLD_SIZE" = env "WORLD_SIZE" /\
  (forall k, setup_environ_flags (setup_environ_flags env) k =
             setup_environ_flags env k).
Proof.
  unfold setup_environ_flags, setitem.
  split; [reflexivity|]. split; [reflexivity|].
  split; [|split; [reflexivity|]].
  - intros k H1 H2. apply String.eqb_neq in H1, H2. rewrite H1, H2.
    reflexivity.
  - intros k. destruct (String.eqb k "NCCL_ASYNC_ERROR_HANDLING");
      [reflexivity|].
    destruct (String.eqb k "TORCH_SHOW_CPP_STACKTRACES"); reflexivity.
Qed.

Lemma tuple_ge_trans (a : list Z) :
  forall b c, tuple_ge a b = true -> tuple_ge b c = true ->
              tuple_ge a c = true.
Proof.
  induction a as [|x a IH]; intros [|y b] [|z c]; cbn [tuple_ge];
    try reflexivity; try discriminate.
  destruct (x >? y) eqn:E1, (y >? z) eqn:E2, (x >? z) eqn:E3;
    try reflexivity;
    destruct (x <? y) eqn:E4, (y <? z) eqn:E5, (x <? z) eqn:E6;
    try discriminate; try lia; try reflexivity.
  apply IH.
Qed.

(** X17. Newer versions never turn bf16 off: when bf16 is found ready with a
    CUDA release [r] and an NCCL version [v], it is found ready with any
    release and version that compare greater or equal to them. *)
Theorem newer_versions_keep_bf16 (hw : hardware) (r v r' v' : list Z) :
  cuda_release hw = Ok r -> nccl_version hw = Ok v ->
  verify_bfloat_support hw = Ok true ->
  tuple_ge r' r = true -> tuple_ge v' v = true ->
  verify_bfloat_support (with_versions hw r' v') = Ok true.
Proof.
  intros Hr Hv. unfold verify_bfloat_support, with_versions.
  cbn [torch_version_cuda is_bf16_supported cuda_release is_nccl_available
       nccl_version].
  rewrite Hr, Hv. unfold and_then, map_result.
  destruct (truthy_str (torch_version_cuda hw)); [|discriminate].
  destruct (is_bf16_supported hw) as [[|]|]; try discriminate.
  destruct (tuple_ge r [11; 0]) eqn:Er; [|discriminate].
  destruct (is_nccl_available hw) as [[|]|]; try discriminate.
  intros H Hr' Hv'. injection H as H.
  rewrite (tuple_ge_trans r' r [11; 0] Hr' Er).
  rewrite (tuple_ge_trans v' v [2; 10] Hv' H). reflexivity.
Qed.

(** ** The further facts at concrete inputs *)

(** Evaluating the run or the report a goal is about. *)
Ltac evaluate_run H :=
  match goal with
  | |- context [snd ?r] =>
      assert (H : r = (Ok tt, snd r)) by (vm_compute; reflexivity)
  end.

Lemma profiler_steps_witness :
  Z.of_nat (profiler_steps
              (trace (snd (run_with 0 true (Some 1) (with_schedule 2 2 2) 0 0
                             scenario_loader)))) = 2.
Proof.
  unfold run_with. evaluate_run H.
  exact (profiler_steps_once_per_iteration unit unit unit ticking_clock
           (Some 1) true nobody flat_lr no_memory no_memory
           (with_schedule 2 2 2) tt 0 tt tt true 0 0 scenario_loader _ H).
Defined.

Lemma collectives_witness :
  reduced (trace (snd (run_with 0 false (Some 1) (with_schedule 5 2 2) 0 0
                         six_batches))) = [2; 4].
Proof.
  unfold run_with. evaluate_run H.
  exact (proj1 (collectives_at_report_steps unit unit unit ticking_clock
                  (Some 1) true nobody flat_lr no_memory no_memory
                  (with_schedule 5 2 2) tt 0 tt tt false 0 0 six_batches _ H)).
Defined.

Lemma saves_witness :
  map fst (saved (trace (snd (run_with 1 false (Some 2) (with_schedule 6 2 4)
                                0 0 six_batches)))) = [4].
Proof.
  unfold run_with. evaluate_run H.
  exact (proj1 (saves_at_checkpoint_steps unit unit unit ticking_clock
                  (Some 2) true nobody flat_lr no_memory no_memory
                  (with_schedule 6 2 4) tt 1 tt tt false 0 0 six_batches _ H)).
Defined.

Lemma other_ranks_witness :
  mute (trace (snd (train_with 1 false (Some 2) with_wandb 0 0
                      scenario_loader))) = true.
Proof.
  apply (other_ranks_are_mute unit unit unit ticking_clock (Some 2) true
           nobody flat_lr no_memory no_memory with_wandb tt 1 tt tt false 0 0
           scenario_loader).
  discriminate.
Defined.

Lemma returned_average_witness :
  exists i d,
    last_contribution
      (trace (snd (train_with 0 false (Some 1) (with_schedule 3 2 2) 0 0
                     scenario_loader))) = Some (i, d) /\
    3 # 2 = average_loss nobody i d /\
    i = 2.
Proof.
  unfold train_with.
  assert (H : fst (train unit unit unit ticking_clock (Some 1) true nobody
                     flat_lr no_memory no_memory (with_schedule 3 2 2) tt 0 tt
                     tt false 0 0 scenario_loader) = Ok (3 # 2))
    by (vm_compute; reflexivity).
  destruct (train_returns_last_reported_average unit unit unit ticking_clock
              (Some 1) true nobody flat_lr no_memory no_memory
              (with_schedule 3 2 2) tt 0 tt tt false 0 0
              scenario_loader (3 # 2) H) as (i & d & H1 & H2 & H3).
  exists i, d. split; [exact H1|]. split; [exact H2|].
  rewrite <- H3. reflexivity.
Defined.

Lemma partition_witness :
  contributions (trace (snd (run_with 0 false (Some 1) (with_schedule 3 2 2)
                               0 0 scenario_loader))) =
  [(2, local_stats [mk_batch 1 (1 # 10); mk_batch 2 (2 # 10)])] /\
  ddp_stats (snd (run_with 0 false (Some 1) (with_schedule 3 2 2) 0 0
                    scenario_loader)) =
  local_stats [mk_batch 3 (3 # 10)].
Proof.
  unfold run_with. evaluate_run H.
  destruct (reports_partition_the_batches unit unit unit ticking_clock
              (Some 1) true nobody flat_lr no_memory no_memory
              (with_schedule 3 2 2) tt 0 tt tt false 0 0 scenario_loader _ H)
    as (H1 & H2 & _).
  split; [exact H1|exact H2].
Defined.


Lemma ticking_clock_moves (n : nat) :
  (2 <= n)%nat -> ~ (ticking_clock n == ticking_clock 1)%Q.
Proof.
  unfold ticking_clock. intros Hn E.
  apply (proj1 (inject_Z_injective _ _)) in E. lia.
Qed.



Lemma zero_interval_witness :
  (exists e, fst (train_with 0 false (Some 1) (with_schedule 3 0 2) 0 0
                    scenario_loader) = Raise e) /\
  saved (trace (snd (train_with 0 false (Some 1) (with_schedule 3 0 2) 0 0
                       scenario_loader))) = [].
Proof.
  unfold train_with.
  destruct (zero_interval_is_fatal unit unit unit ticking_clock (Some 1) true
              nobody flat_lr no_memory no_memory (with_schedule 3 0 2) tt 0
              tt tt false 0 0 scenario_loader (or_introl eq_refl))
    as (H1 & H2 & _).
  split; [exact H1|exact H2].
Defined.

Lemma lagging_token_count_witness :
  Forall (fun p =>
            snd p = 0 + (fst p - fst p mod 2 - 0) * 1 * 2 * 4096 /\
            snd p = 0 + (fst p - 0) * 1 * 2 * 4096 -
                    (fst p mod 2) * 1 * 2 * 4096)
         (saved (trace (snd (run_with 0 false (Some 1) (with_schedule 3 2 3)
                               0 0 scenario_loader)))).
Proof.
  unfold run_with. evaluate_run H.
  exact (saved_token_count_lags_to_last_report unit unit unit ticking_clock
           (Some 1) true nobody flat_lr no_memory no_memory
           (with_schedule 3 2 3) tt 0 tt tt false 0 0 scenario_loader 1 _
           eq_refl eq_refl H).
Defined.

Lemma wandb_record_witness :
  exists m,
    logged (trace (snd (report_with 0 (Some 1) with_wandb 2 with_one_batch))) =
    logged (trace with_one_batch) ++ [(m, 2)] /\
    w_token_seen m = 0 + (2 - 0) * 1 * batch_size with_wandb *
                         seq_length with_wandb.
Proof.
  unfold report_with. evaluate_run H.
  destruct (wandb_record_matches_printed unit unit unit ticking_clock (Some 1)
              nobody flat_lr no_memory no_memory with_wandb 0 0 0 2 1
              with_one_batch _ eq_refl eq_refl eq_refl H)
    as (m & H1 & _ & _ & _ & _ & _ & _ & _ & H2 & _).
  exists m. split; [exact H1|exact H2].
Defined.

Lemma zero_world_size_witness :
  fst (report_with 0 (Some 0) (with_schedule 3 2 2) 2 with_one_batch) =
  Raise ZeroDivisionError /\
  fst (report_with 1 (Some 0) (with_schedule 3 2 2) 2 with_one_batch) = Ok tt.
Proof.
  unfold report_with.
  destruct (zero_world_size_splits_the_ranks unit unit unit ticking_clock
              (Some 0) nobody flat_lr no_memory no_memory
              (with_schedule 3 2 2) 0 0 0 2 with_one_batch eq_refl)
    as [H0 _].
  destruct (zero_world_size_splits_the_ranks unit unit unit ticking_clock
              (Some 0) nobody flat_lr no_memory no_memory
              (with_schedule 3 2 2) 1 0 0 2 with_one_batch eq_refl)
    as [_ H1].
  split; [apply H0; reflexivity|apply H1; discriminate].
Defined.

Lemma newer_versions_witness :
  verify_bfloat_support (with_versions bf16_hardware [12; 4] [2; 19]) = Ok true.
Proof.
  apply (newer_versions_keep_bf16 bf16_hardware [12; 1] [2; 18; 3]);
    reflexivity.
Defined.

(** A checkpoint taken off the report cadence, at step 3 with reports
    every two steps, and a run resumed from it: at step 6 the resumed
    run hands over the tokens of five steps where the run that was not
    interrupted hands over those of six. *)
Lemma resumed_token_count_witness :
  5 * 8192 = 6 * 8192 - (3 mod report_interval (with_schedule 6 2 3)) * 1 *
                        batch_size (with_schedule 6 2 3) *
                        seq_length (with_schedule 6 2 3) /\
  (3 mod report_interval (with_schedule 6 2 3) = 0 -> 5 * 8192 = 6 * 8192).
Proof.
  apply (resumed_token_count unit unit unit ticking_clock ticking_clock 1
           true true nobody nobody flat_lr no_memory no_memory
           (with_schedule 6 2 3) tt 0 tt tt false
           0 0 3 (2 * 8192) 6 (5 * 8192) (6 * 8192)
           six_batches (skipn 3 six_batches) six_batches
           (snd (run_with 0 false (Some 1) (with_schedule 6 2 3) 0 0
                   six_batches))
           (snd (run_with 0 false (Some 1) (with_schedule 6 2 3) 3 (2 * 8192)
                   (skipn 3 six_batches)))
           (snd (run_with 0 false (Some 1) (with_schedule 6 2 3) 0 0
                   six_batches))).
  - reflexivity.
  - vm_compute; reflexivity.
  - vm_compute; auto.
  - vm_compute; reflexivity.
  - vm_compute; auto.
  - vm_compute; reflexivity.
  - vm_compute; auto.
Defined.
